(** * sqlboiler: filter resolver, primary-key validation and the State
      orchestrator ([drivers/config.go], [sqlboiler.go]).

    The Go code is embedded shallowly.  Strings are byte strings
    ([String.string]), Go's [int] is [Z], a slice keeps the difference
    between [nil] and an empty non-nil slice, [error] is a small inductive
    with its [Error()] rendering, and the methods of [*State] run in a
    state monad over the pointed-to struct and a log of the calls that
    leave the package. *)

From Stdlib Require Import String Ascii List ZArith Bool Lia.
Import ListNotations.

Local Open Scope string_scope.
Local Open Scope list_scope.

(** ** Go values *)

Module Go.

(** A Go slice: [nil], or a (possibly empty) backing sequence. *)
Inductive slice (A : Type) : Type :=
| nil_slice : slice A
| mk_slice : list A -> slice A.
Arguments nil_slice {A}.
Arguments mk_slice {A} _.

(** The elements a [range] loop visits. *)
Definition elems {A} (s : slice A) : list A :=
  match s with
  | nil_slice => []
  | mk_slice l => l
  end.

Definition len {A} (s : slice A) : nat := length (elems s).

(** [append(s, x)]: appending to [nil] allocates. *)
Definition append {A} (s : slice A) (x : A) : slice A :=
  mk_slice (elems s ++ [x]).

(** [strings.Split(s, sep)] for a separator of one byte: the segments of
    [s] between the occurrences of [sep]; [seg] is the segment being
    read.  The result always has at least one element. *)
Fixpoint split_from (sep : ascii) (seg s : string) : list string :=
  match s with
  | EmptyString => [seg]
  | String c r =>
      if Ascii.eqb c sep
      then seg :: split_from sep EmptyString r
      else split_from sep (seg ++ String c EmptyString) r
  end.

Definition Split (s : string) (sep : ascii) : list string :=
  split_from sep EmptyString s.

(** [strings.Join(elems, sep)]. *)
Definition Join (l : list string) (sep : string) : string :=
  String.concat sep l.

(** Whether byte [c] occurs in [s]. *)
Fixpoint has_byte (c : ascii) (s : string) : bool :=
  match s with
  | EmptyString => false
  | String a r => Ascii.eqb a c || has_byte c r
  end.

(** How many times byte [c] occurs in [s]. *)
Fixpoint count_byte (c : ascii) (s : string) : nat :=
  match s with
  | EmptyString => 0
  | String a r => (if Ascii.eqb a c then 1 else 0) + count_byte c r
  end.

(** The slice a loop of [append]s builds from a [nil] variable once it has
    appended the elements of [l]: still [nil] if there were none. *)
Definition appended {A} (l : list A) : slice A :=
  match l with
  | [] => nil_slice
  | _ :: _ => mk_slice l
  end.

End Go.

Import Go.

(** ** drivers/config.go *)

Module drivers.

Definition dot : ascii := "."%char.

(** [DefaultInt] retrieves a non-zero int or the default value provided.
    The function only compares and returns its arguments, so the width of
    [int] plays no part. *)
Definition DefaultInt (value def : Z) : Z :=
  if (value =? 0)%Z then def else value.

(** One iteration of the loop of [TablesFromList]. *)
Definition tables_step (tables : slice string) (i : string) : slice string :=
  let splits := Split i dot in
  if Nat.eqb (length splits) 1
  then append tables (hd EmptyString splits)
  else tables.

Definition TablesFromList (list : slice string) : slice string :=
  if Nat.eqb (len list) 0 then nil_slice
  else fold_left tables_step (elems list) nil_slice.

(** One iteration of the loop of [ColumnsFromList]. *)
Definition columns_step (tablename : string)
           (columns : slice string) (i : string) : slice string :=
  let splits := Split i dot in
  if negb (Nat.eqb (length splits) 2) then columns
  else if String.eqb (nth 0 splits EmptyString) tablename
          || String.eqb (nth 0 splits EmptyString) "*"
       then append columns (nth 1 splits EmptyString)
       else columns.

Definition ColumnsFromList (list : slice string) (tablename : string)
  : slice string :=
  if Nat.eqb (len list) 0 then nil_slice
  else fold_left (columns_step tablename) (elems list) nil_slice.

(** What one entry adds to the result of [ColumnsFromList], read off
    [columns_step]. *)
Definition column_of (tablename i : string) : list string :=
  match Split i dot with
  | [t; c] => if String.eqb t tablename || String.eqb t "*" then [c] else []
  | _ => []
  end.

(** What one entry adds to the result of [TablesFromList], read off
    [tables_step]: the entry itself when it has no ['.']. *)
Definition table_of (i : string) : list string :=
  if negb (has_byte dot i) then [i] else [].

(** [DefaultEnv] grabs a value from the environment or a default.
    [getenv] is [os.Getenv], which gives the empty string for a variable
    that is not set. *)
Definition DefaultEnv (getenv : string -> string) (key def : string) : string :=
  let val := getenv key in
  if Nat.eqb (String.length val) 0 then def else val.

End drivers.

(** ** github.com/pkg/errors *)

Module errors.

(** An error value: created with a message ([errors.New], [errors.Errorf]
    once formatted) or wrapping a cause with a context message. *)
Inductive error : Type :=
| New (msg : string)
| Wrap (cause : error) (msg : string).

(** The [Error()] method. *)
Fixpoint Error (e : error) : string :=
  match e with
  | New msg => msg
  | Wrap cause msg => msg ++ ": " ++ Error cause
  end.

End errors.

(** ** bdb: the schema model and the driver interface *)

Module bdb.

Record PrimaryKey : Type := {
  PKName : string;
  PKColumns : list string
}.

(** Modelled from the spec: the declaration of [bdb.Table] is in package
    [bdb]; these are the fields [sqlboiler.go] reads.  [PKey] is a pointer,
    [None] is [nil]. *)
Record Table : Type := {
  Name : string;
  PKey : option PrimaryKey;
  IsJoinTable : bool
}.

(** The zero value [Table{}]. *)
Definition zeroTable : Table :=
  {| Name := ""; PKey := None; IsJoinTable := false |}.

(** The values of [bdb.Interface] that [initDriver] can build. *)
Inductive Interface : Type :=
| PostgresDriver (user pass dbname host : string) (port : Z) (sslmode : string)
| MockDriver.

End bdb.

(** ** sqlboiler.go *)

Module sqlboiler.

Import errors bdb.

Definition templatesDirectory := "templates".
Definition templatesSingletonDirectory := "templates/singleton".
Definition templatesTestDirectory := "templates_test".
Definition templatesSingletonTestDirectory := "templates_test/singleton".
Definition templatesTestMainDirectory := "templates_test/main_test".

Definition basePackage := "github.com/vattle/sqlboiler".

(** Modelled from the spec: [Config] is declared in [config.go]; these are
    the fields [sqlboiler.go] reads. *)
Record PostgresConfig : Type := {
  User : string;
  Pass : string;
  Host : string;
  Port : Z;
  DBName : string;
  SSLMode : string
}.

Record Config : Type := {
  DriverName : string;
  PkgName : string;
  OutFolder : string;
  BaseDir : string;
  ExcludeTables : slice string;
  NoHooks : bool;
  Postgres : PostgresConfig
}.

(** Loaded templates are handles; their contents belong to [text/template]. *)
Inductive templateList : Type := TemplateList (dir : string) (names : list string).
Inductive template : Type := Template (dir name : string).

(** [State] holds the global data needed by most pieces to run.  [Config]
    is the struct behind the [*Config] pointer; nil pointers and the nil
    interface are [None]. *)
Record State : Type := {
  Config_ : Config;
  Driver : option Interface;
  Tables : slice Table;
  Templates : option templateList;
  TestTemplates : option templateList;
  SingletonTemplates : option templateList;
  SingletonTestTemplates : option templateList;
  TestMainTemplate : option template
}.

(** The struct after an assignment to one field. *)
Definition withDriver (d : option Interface) (s : State) : State :=
  {| Config_ := Config_ s; Driver := d; Tables := Tables s;
     Templates := Templates s; TestTemplates := TestTemplates s;
     SingletonTemplates := SingletonTemplates s;
     SingletonTestTemplates := SingletonTestTemplates s;
     TestMainTemplate := TestMainTemplate s |}.

Definition withTables (t : slice Table) (s : State) : State :=
  {| Config_ := Config_ s; Driver := Driver s; Tables := t;
     Templates := Templates s; TestTemplates := TestTemplates s;
     SingletonTemplates := SingletonTemplates s;
     SingletonTestTemplates := SingletonTestTemplates s;
     TestMainTemplate := TestMainTemplate s |}.

Definition withTemplates (t : option templateList) (s : State) : State :=
  {| Config_ := Config_ s; Driver := Driver s; Tables := Tables s;
     Templates := t; TestTemplates := TestTemplates s;
     SingletonTemplates := SingletonTemplates s;
     SingletonTestTemplates := SingletonTestTemplates s;
     TestMainTemplate := TestMainTemplate s |}.

Definition withSingletonTemplates (t : option templateList) (s : State) : State :=
  {| Config_ := Config_ s; Driver := Driver s; Tables := Tables s;
     Templates := Templates s; TestTemplates := TestTemplates s;
     SingletonTemplates := t;
     SingletonTestTemplates := SingletonTestTemplates s;
     TestMainTemplate := TestMainTemplate s |}.

Definition withTestTemplates (t : option templateList) (s : State) : State :=
  {| Config_ := Config_ s; Driver := Driver s; Tables := Tables s;
     Templates := Templates s; TestTemplates := t;
     SingletonTemplates := SingletonTemplates s;
     SingletonTestTemplates := SingletonTestTemplates s;
     TestMainTemplate := TestMainTemplate s |}.

Definition withSingletonTestTemplates (t : option templateList) (s : State) : State :=
  {| Config_ := Config_ s; Driver := Driver s; Tables := Tables s;
     Templates := Templates s; TestTemplates := TestTemplates s;
     SingletonTemplates := SingletonTemplates s;
     SingletonTestTemplates := t;
     TestMainTemplate := TestMainTemplate s |}.

Definition withTestMainTemplate (t : option template) (s : State) : State :=
  {| Config_ := Config_ s; Driver := Driver s; Tables := Tables s;
     Templates := Templates s; TestTemplates := TestTemplates s;
     SingletonTemplates := SingletonTemplates s;
     SingletonTestTemplates := SingletonTestTemplates s;
     TestMainTemplate := t |}.

(** [templateData], without [StringFuncs] (a fixed table of functions). *)
Record templateData : Type := {
  tdTables : slice Table;
  tdTable : Table;
  tdDriverName : string;
  tdUseLastInsertID : bool;
  tdPkgName : string;
  tdNoHooks : bool
}.

(** The five output generators of [output.go]. *)
Inductive Generator : Type :=
| SingletonOutput
| TestMainOutput
| SingletonTestOutput
| Output
| TestOutput.

Definition is_test_generator (g : Generator) : bool :=
  match g with
  | TestMainOutput | SingletonTestOutput | TestOutput => true
  | SingletonOutput | Output => false
  end.

Definition is_table_generator (g : Generator) : bool :=
  match g with
  | Output | TestOutput => true
  | SingletonOutput | TestMainOutput | SingletonTestOutput => false
  end.

(** [build.Package], the field that is read. *)
Record Package : Type := { Dir : string }.

(** What lies outside [sqlboiler.go]: the drivers, the introspection of
    package [bdb], the file system, the Go build context and the template
    loader and generators.  Each is a function of its arguments. *)
Record World : Type := {
  driver_Open : Interface -> option error;
  driver_Close : Interface -> option error;
  driver_UseLastInsertID : Interface -> bool;
  bdb_Tables : Interface -> list string -> slice Table * option error;
  os_MkdirAll : string -> option error;
  os_Getwd : string * option error;
  build_Import : string -> option Package;
  filepath_Join : string -> string -> string;
  loadTemplates : string -> option templateList * option error;
  loadTemplate : string -> string -> option template * option error;
  generate : Generator -> State -> templateData -> option error
}.

(** The calls that leave the package, in the order they are made. *)
Inductive Event : Type :=
| EvOpen (d : Interface)
| EvClose (d : Interface)
| EvUseLastInsertID (d : Interface)
| EvTables (d : Interface) (exclude : list string)
| EvMkdirAll (path : string)
| EvImport (pkg : string)
| EvGetwd
| EvLoadTemplates (dir : string)
| EvLoadTemplate (dir name : string)
| EvGenerate (g : Generator) (data : templateData).

(** *** The monad of the methods of [*State]

    A computation reads and writes the struct behind the receiver, logs its
    external calls and either returns or panics (a nil dereference). *)
Inductive result (A : Type) : Type :=
| Ret (a : A) (s : State)
| Panic.
Arguments Ret {A} a s.
Arguments Panic {A}.

Definition M (A : Type) : Type := State -> list Event * result A.

Definition ret {A} (a : A) : M A := fun s => ([], Ret a s).

Definition bind {A B} (m : M A) (f : A -> M B) : M B :=
  fun s =>
    match m s with
    | (l1, Panic) => (l1, Panic)
    | (l1, Ret a s1) =>
        match f a s1 with
        | (l2, r) => (l1 ++ l2, r)
        end
    end.

Definition get : M State := fun s => ([], Ret s s).
Definition put (s : State) : M unit := fun _ => ([], Ret tt s).
Definition emit (e : Event) : M unit := fun s => ([e], Ret tt s).
Definition panic {A} : M A := fun _ => ([], Panic).

Notation "x <- m ;; k" := (bind m (fun x => k))
  (at level 61, m at next level, right associativity).
Notation "m ;;; k" := (bind m (fun _ => k))
  (at level 61, right associativity).

(** [if err := m; err != nil { return wrap(err) }], then [k]. *)
Definition check (m : M (option error)) (wrap : error -> error)
           (k : M (option error)) : M (option error) :=
  e <- m ;;
  match e with
  | Some err => ret (Some (wrap err))
  | None => k
  end.

Section Methods.

Variable w : World.

(** Field assignments through the receiver. *)
Definition set_Driver (d : option Interface) : M unit :=
  s <- get ;; put (withDriver d s).

Definition set_Tables (t : slice Table) : M unit :=
  s <- get ;; put (withTables t s).

Definition set_Templates (t : option templateList) : M unit :=
  s <- get ;; put (withTemplates t s).

Definition set_SingletonTemplates (t : option templateList) : M unit :=
  s <- get ;; put (withSingletonTemplates t s).

Definition set_TestTemplates (t : option templateList) : M unit :=
  s <- get ;; put (withTestTemplates t s).

Definition set_SingletonTestTemplates (t : option templateList) : M unit :=
  s <- get ;; put (withSingletonTestTemplates t s).

Definition set_TestMainTemplate (t : option template) : M unit :=
  s <- get ;; put (withTestMainTemplate t s).

(** [s.Driver], for a method call on it: the nil interface panics. *)
Definition the_Driver : M Interface :=
  s <- get ;;
  match Driver s with
  | Some d => ret d
  | None => panic
  end.

Definition Driver_Open : M (option error) :=
  d <- the_Driver ;; emit (EvOpen d) ;;; ret (driver_Open w d).

(** [Close] has no result; what the driver's own close reports stays
    inside the driver. *)
Definition Driver_Close : M unit :=
  d <- the_Driver ;; emit (EvClose d) ;;;
  let _ := driver_Close w d in ret tt.

Definition Driver_UseLastInsertID : M bool :=
  d <- the_Driver ;; emit (EvUseLastInsertID d) ;;; ret (driver_UseLastInsertID w d).

Definition call_generate (g : Generator) (data : templateData) : M (option error) :=
  s <- get ;; emit (EvGenerate g data) ;;; ret (generate w g s data).

Definition call_loadTemplates (dir : string) : M (option templateList * option error) :=
  emit (EvLoadTemplates dir) ;;; ret (loadTemplates w dir).

Definition call_loadTemplate (dir name : string) : M (option template * option error) :=
  emit (EvLoadTemplate dir name) ;;; ret (loadTemplate w dir name).

(** [checkPKeys] ensures every table has a primary key column. *)
Definition pkeys_step (missingPkey : slice string) (t : Table) : slice string :=
  match PKey t with
  | None => append missingPkey (Name t)
  | Some _ => missingPkey
  end.

Definition checkPKeys (tables : slice Table) : option error :=
  let missingPkey := fold_left pkeys_step (elems tables) nil_slice in
  if negb (Nat.eqb (len missingPkey) 0)
  then Some (New ("primary key missing in tables (" ++ Join (elems missingPkey) ", " ++ ")"))
  else None.

(** [initDriver] attempts to set the state Interface based off the passed in
    driver flag value. *)
Definition initDriver (driverName : string) : M (option error) :=
  (if String.eqb driverName "postgres" then
     s <- get ;;
     let c := Postgres (Config_ s) in
     set_Driver (Some (PostgresDriver (User c) (Pass c) (DBName c) (Host c)
                                      (Port c) (SSLMode c)))
   else if String.eqb driverName "mock" then
     set_Driver (Some MockDriver)
   else ret tt) ;;;
  s <- get ;;
  match Driver s with
  | None => ret (Some (New "An invalid driver name was provided"))
  | Some _ => ret None
  end.

(** The driver the [switch] of [initDriver] builds for a configuration,
    if its name is one of the two cases. *)
Definition selectDriver (config : Config) : option Interface :=
  if String.eqb (DriverName config) "postgres" then
    let c := Postgres config in
    Some (PostgresDriver (User c) (Pass c) (DBName c) (Host c) (Port c) (SSLMode c))
  else if String.eqb (DriverName config) "mock" then Some MockDriver
  else None.

(** [initTables] retrieves all "public" schema table names from the
    database. *)
Definition initTables (exclude : slice string) : M (option error) :=
  d <- the_Driver ;;
  emit (EvTables d (elems exclude)) ;;;
  let r := bdb_Tables w d (elems exclude) in
  set_Tables (fst r) ;;;
  match snd r with
  | Some err => ret (Some (Wrap err "unable to fetch table data"))
  | None =>
      s <- get ;;
      if Nat.eqb (len (Tables s)) 0
      then ret (Some (New "no tables found in database"))
      else match checkPKeys (Tables s) with
           | Some err => ret (Some err)
           | None => ret None
           end
  end.

(** [initOutFolder] creates the folder that will hold the generated output. *)
Definition initOutFolder : M (option error) :=
  s <- get ;;
  emit (EvMkdirAll (OutFolder (Config_ s))) ;;;
  ret (os_MkdirAll w (OutFolder (Config_ s))).

Definition getBasePath (baseDirConfig : string) : M (string * option error) :=
  if Nat.ltb 0 (String.length baseDirConfig) then ret (baseDirConfig, None)
  else
    emit (EvImport basePackage) ;;;
    match build_Import w basePackage with
    | Some p =>
        if Nat.ltb 0 (String.length (Dir p)) then ret (Dir p, None)
        else emit EvGetwd ;;; ret (os_Getwd w)
    | None => emit EvGetwd ;;; ret (os_Getwd w)
    end.

(** [initTemplates] loads all template folders into the state object. *)
Definition initTemplates : M (option error) :=
  s <- get ;;
  r <- getBasePath (BaseDir (Config_ s)) ;;
  let basePath := fst r in
  match snd r with
  | Some err => ret (Some err)
  | None =>
  r <- call_loadTemplates (filepath_Join w basePath templatesDirectory) ;;
  set_Templates (fst r) ;;;
  match snd r with
  | Some err => ret (Some err)
  | None =>
  r <- call_loadTemplates (filepath_Join w basePath templatesSingletonDirectory) ;;
  set_SingletonTemplates (fst r) ;;;
  match snd r with
  | Some err => ret (Some err)
  | None =>
  r <- call_loadTemplates (filepath_Join w basePath templatesTestDirectory) ;;
  set_TestTemplates (fst r) ;;;
  match snd r with
  | Some err => ret (Some err)
  | None =>
  r <- call_loadTemplates (filepath_Join w basePath templatesSingletonTestDirectory) ;;
  set_SingletonTestTemplates (fst r) ;;;
  match snd r with
  | Some err => ret (Some err)
  | None =>
  s <- get ;;
  r <- call_loadTemplate (filepath_Join w basePath templatesTestMainDirectory)
                         (DriverName (Config_ s) ++ "_main.tpl") ;;
  set_TestMainTemplate (fst r) ;;;
  match snd r with
  | Some err => ret (Some err)
  | None => ret None
  end end end end end end.

(** The struct literal [&State{Config: config}]. *)
Definition newState (config : Config) : State :=
  {| Config_ := config; Driver := None; Tables := nil_slice;
     Templates := None; TestTemplates := None;
     SingletonTemplates := None; SingletonTestTemplates := None;
     TestMainTemplate := None |}.

(** One stage of [New]: on an error [New] returns [nil, wrap(err)]. *)
Definition stage (m : M (option error)) (wrap : error -> error)
           (k : M (option State * option error)) : M (option State * option error) :=
  e <- m ;;
  match e with
  | Some err => ret (None, Some (wrap err))
  | None => k
  end.

(** [New] creates a new state based off of the config.  The computation
    runs on the struct [New] allocates; its value is the pair [New]
    returns, the pointer being [Some] of the struct or [None] for [nil]. *)
Definition New (config : Config) : list Event * result (option State * option error) :=
  (stage (initDriver (DriverName config)) (fun err => err) (
   stage Driver_Open (fun err => Wrap err "unable to connect to the database") (
   stage (initTables (ExcludeTables config))
         (fun err => Wrap err "unable to initialize tables") (
   stage initOutFolder
         (fun err => Wrap err "unable to initialize the output folder") (
   stage initTemplates (fun err => Wrap err "unable to initialize templates") (
   s <- get ;; ret (Some s, None))))))) (newState config).

(** The [templateData] literal of the table loop. *)
Definition tableData (s : State) (table : Table) (useLastInsertID : bool) : templateData :=
  {| tdTables := Tables s;
     tdTable := table;
     tdDriverName := DriverName (Config_ s);
     tdUseLastInsertID := useLastInsertID;
     tdPkgName := PkgName (Config_ s);
     tdNoHooks := NoHooks (Config_ s) |}.

(** The loop [for _, table := range s.Tables] of [Run]. *)
Fixpoint runTables (includeTests : bool) (tables : list Table) : M (option error) :=
  match tables with
  | [] => ret None
  | table :: rest =>
      if IsJoinTable table then runTables includeTests rest
      else
        s <- get ;;
        u <- Driver_UseLastInsertID ;;
        let data := tableData s table u in
        check (call_generate Output data)
              (fun err => Wrap err "unable to generate output") (
        check (if includeTests then call_generate TestOutput data else ret None)
              (fun err => Wrap err "unable to generate test output") (
        runTables includeTests rest))
  end.

(** [Run] executes the sqlboiler templates and outputs them to files based
    on the state given. *)
Definition Run (includeTests : bool) : M (option error) :=
  s <- get ;;
  u <- Driver_UseLastInsertID ;;
  let singletonData := tableData s zeroTable u in
  check (call_generate SingletonOutput singletonData)
        (fun err => Wrap err "singleton template output") (
  check (if includeTests then
           check (call_generate TestMainOutput singletonData)
                 (fun err => Wrap err "unable to generate TestMain output") (
           check (call_generate SingletonTestOutput singletonData)
                 (fun err => Wrap err "unable to generate singleton test template output") (
           ret None))
         else ret None)
        (fun err => err) (
  s <- get ;;
  runTables includeTests (elems (Tables s)))).

(** [Cleanup] closes any resources that must be closed. *)
Definition Cleanup : M (option error) :=
  Driver_Close ;;; ret None.

End Methods.

(** *** Reading a run *)

Definition value {A} (r : list Event * result A) : option A :=
  match snd r with
  | Ret a _ => Some a
  | Panic => None
  end.

Definition final {A} (r : list Event * result A) : option State :=
  match snd r with
  | Ret _ s => Some s
  | Panic => None
  end.

Definition trace {A} (r : list Event * result A) : list Event := fst r.

(** The error value of [initDriver]. *)
Definition invalidDriver : error :=
  errors.New "An invalid driver name was provided".

(** The error [initTables] returns for what [bdb.Tables] returned, read off
    its three checks. *)
Definition tablesError (r : slice Table * option error) : option error :=
  match snd r with
  | Some err => Some (Wrap err "unable to fetch table data")
  | None =>
      if Nat.eqb (len (fst r)) 0
      then Some (errors.New "no tables found in database")
      else checkPKeys (fst r)
  end.

(** Whether an event is a call of [Close]. *)
Definition is_Close (e : Event) : bool :=
  match e with
  | EvClose _ => true
  | _ => false
  end.

(** Whether an event belongs to a stage of [New] after [initTables]. *)
Definition is_late_stage (e : Event) : bool :=
  match e with
  | EvMkdirAll _ | EvImport _ | EvGetwd
  | EvLoadTemplates _ | EvLoadTemplate _ _ | EvGenerate _ _ => true
  | _ => false
  end.

End sqlboiler.

(** ** The reading of the filter grammar, in the words of the specification *)

Module FilterSpec.

Import drivers.

(** [s] is a whole-table reference: it has no separator. *)
Definition spec_table_ref (s : string) : bool := negb (has_byte dot s).

(** [s] is [table.column] for a table segment that is [tablename] or the
    wildcard, and [column] is its column segment. *)
Definition spec_column_ref (tablename s column : string) : Prop :=
  exists table,
    s = (table ++ "." ++ column)%string
    /\ has_byte dot table = false
    /\ has_byte dot column = false
    /\ (table = tablename \/ table = "*").

(** [r] lists, in input order, the column segment of every entry of [l]
    that is a column reference for [tablename]. *)
Inductive spec_selects (tablename : string) : list string -> list string -> Prop :=
| selects_nil : spec_selects tablename [] []
| selects_take s c l r :
    spec_column_ref tablename s c ->
    spec_selects tablename l r ->
    spec_selects tablename (s :: l) (c :: r)
| selects_skip s l r :
    (forall c, ~ spec_column_ref tablename s c) ->
    spec_selects tablename l r ->
    spec_selects tablename (s :: l) r.

End FilterSpec.

(** ** Reading the validation error *)

Module ValidationSpec.

Import bdb.

Definition lacks_pkey (t : Table) : bool :=
  match PKey t with
  | None => true
  | Some _ => false
  end.

(** The names of the tables without a primary key, in table order. *)
Definition missing_names (tables : list Table) : list string :=
  map Name (filter lacks_pkey tables).

(** [x] occurs in [s] as a substring. *)
Definition occurs_in (x s : string) : Prop :=
  exists a b, s = (a ++ x ++ b)%string.

End ValidationSpec.

(** ** Reading the log of [Run] *)

Module RunSpec.

Import bdb sqlboiler.

(** What a call of a generator must satisfy: its data carries the whole
    table list; a per-table generator is given a table of the list that is
    not a join table; a test generator runs only with [includeTests]. *)
Definition render_ok (s : State) (includeTests : bool) (e : Event) : Prop :=
  match e with
  | EvGenerate g data =>
      tdTables data = Tables s
      /\ (is_table_generator g = true ->
          In (tdTable data) (elems (Tables s))
          /\ IsJoinTable (tdTable data) = false)
      /\ (is_test_generator g = true -> includeTests = true)
  | _ => True
  end.

(** The calls made for one table that is not a join table, when no
    generator fails. *)
Definition table_calls (w : World) (s : State) (d : Interface)
           (includeTests : bool) (table : Table) : list Event :=
  let data := tableData s table (driver_UseLastInsertID w d) in
  [EvUseLastInsertID d; EvGenerate Output data]
    ++ (if includeTests then [EvGenerate TestOutput data] else []).

(** The calls of a whole [Run], when no generator fails. *)
Definition run_calls (w : World) (s : State) (d : Interface)
           (includeTests : bool) : list Event :=
  let singletonData := tableData s zeroTable (driver_UseLastInsertID w d) in
  [EvUseLastInsertID d; EvGenerate SingletonOutput singletonData]
    ++ (if includeTests
        then [EvGenerate TestMainOutput singletonData;
              EvGenerate SingletonTestOutput singletonData]
        else [])
    ++ flat_map (table_calls w s d includeTests)
                (filter (fun t => negb (IsJoinTable t)) (elems (Tables s))).

End RunSpec.

(** ** Reading the errors and the log of the orchestrator *)

Module OrchestratorSpec.

Import errors bdb sqlboiler.

(** The context message [Run] wraps around the error of a generator. *)
Definition run_message (g : Generator) : string :=
  match g with
  | SingletonOutput => "singleton template output"
  | TestMainOutput => "unable to generate TestMain output"
  | SingletonTestOutput => "unable to generate singleton test template output"
  | Output => "unable to generate output"
  | TestOutput => "unable to generate test output"
  end.

(** Whether an event is a call of one of the three test generators. *)
Definition is_test_call (e : Event) : bool :=
  match e with
  | EvGenerate g _ => is_test_generator g
  | _ => false
  end.

(** Whether a generator call of the log returned no error. *)
Definition call_succeeded (w : World) (s : State) (e : Event) : Prop :=
  match e with
  | EvGenerate g data => generate w g s data = None
  | _ => True
  end.

(** What a finished loop or run looks like: the state is the one it
    started from; with nil every generator call succeeded; with an error
    the last call failed, the calls before it succeeded, and the error is
    that call's error under the message of its generator. *)
Definition finished (w : World) (s : State) (r : list Event * result (option error)) : Prop :=
  match snd r with
  | Ret None s' => s' = s /\ Forall (call_succeeded w s) (fst r)
  | Ret (Some e) s' =>
      s' = s
      /\ exists l g data cause,
          fst r = l ++ [EvGenerate g data]
          /\ Forall (call_succeeded w s) l
          /\ generate w g s data = Some cause
          /\ e = Wrap cause (run_message g)
  | Panic => False
  end.

(** The five loads of [initTemplates] under a base path, in source order. *)
Definition template_loads (w : World) (basePath driverName : string) : list Event :=
  [EvLoadTemplates (filepath_Join w basePath templatesDirectory);
   EvLoadTemplates (filepath_Join w basePath templatesSingletonDirectory);
   EvLoadTemplates (filepath_Join w basePath templatesTestDirectory);
   EvLoadTemplates (filepath_Join w basePath templatesSingletonTestDirectory);
   EvLoadTemplate (filepath_Join w basePath templatesTestMainDirectory)
                  (driverName ++ "_main.tpl")].

(** The error the template loader returned for a load of the log. *)
Definition load_error (w : World) (e : Event) : option error :=
  match e with
  | EvLoadTemplates dir => snd (loadTemplates w dir)
  | EvLoadTemplate dir name => snd (loadTemplate w dir name)
  | _ => None
  end.


End OrchestratorSpec.

(** ** Concrete schemas, configurations and worlds *)

Module Fixtures.

Import errors bdb sqlboiler.

Definition mockConfig : Config :=
  {| DriverName := "mock"; PkgName := "models"; OutFolder := "models";
     BaseDir := ""; ExcludeTables := nil_slice; NoHooks := false;
     Postgres := {| User := ""; Pass := ""; Host := ""; Port := 0;
                    DBName := ""; SSLMode := "" |} |}.

Definition pk (name : string) : PrimaryKey :=
  {| PKName := name; PKColumns := ["id"] |}.

Definition T1 : Table := {| Name := "T1"; PKey := None; IsJoinTable := false |}.
Definition T2 : Table :=
  {| Name := "T2"; PKey := Some (pk "T2_pkey"); IsJoinTable := false |}.
Definition T3 : Table := {| Name := "T3"; PKey := None; IsJoinTable := false |}.
Definition J : Table :=
  {| Name := "J"; PKey := Some (pk "J_pkey"); IsJoinTable := true |}.

(** A world in which everything succeeds unless the arguments say
    otherwise. *)
Definition world (open : option error) (tables : slice Table * option error)
           (mkdir : option error) (import : option Package)
           (gen : Generator -> templateData -> option error) : World :=
  {| driver_Open := fun _ => open;
     driver_Close := fun _ => Some (errors.New "close failed");
     driver_UseLastInsertID := fun _ => false;
     bdb_Tables := fun _ _ => tables;
     os_MkdirAll := fun _ => mkdir;
     os_Getwd := ("/work", None);
     build_Import := fun _ => import;
     filepath_Join := fun a b => (a ++ "/" ++ b)%string;
     loadTemplates := fun dir => (Some (TemplateList dir []), None);
     loadTemplate := fun dir name => (Some (Template dir name), None);
     generate := fun g _ data => gen g data |}.

Definition noGenError (g : Generator) (data : templateData) : option error := None.

Definition okWorld : World :=
  world None (mk_slice [T2; J], None) None None noGenError.

Definition openFailsWorld : World :=
  world (Some (errors.New "connection refused")) (mk_slice [T2; J], None)
        None None noGenError.

Definition emptySchemaWorld : World :=
  world None (nil_slice, None) None None noGenError.

Definition gopathWorld : World :=
  world None (mk_slice [T2; J], None) None
        (Some {| Dir := "/go/src/github.com/vattle/sqlboiler" |}) noGenError.

Definition readyState : State :=
  withTables (mk_slice [T2; J]) (withDriver (Some MockDriver) (newState mockConfig)).

(** The state [New] builds in [okWorld]. *)
Definition builtState : State :=
  withTestMainTemplate
    (Some (Template "/work/templates_test/main_test" "mock_main.tpl"))
    (withSingletonTestTemplates
       (Some (TemplateList "/work/templates_test/singleton" []))
       (withTestTemplates
          (Some (TemplateList "/work/templates_test" []))
          (withSingletonTemplates
             (Some (TemplateList "/work/templates/singleton" []))
             (withTemplates (Some (TemplateList "/work/templates" []))
                            readyState)))).


(** An environment with one variable set and one set to the empty string. *)
Definition env (key : string) : string :=
  if String.eqb key "DB_HOST" then "db.local" else "".

(** A world whose first per-table generator fails. *)
Definition outputFails (g : Generator) (data : templateData) : option error :=
  match g with
  | Output => Some (errors.New "disk full")
  | _ => None
  end.

Definition outputFailsWorld : World :=
  world None (mk_slice [T2; J], None) None None outputFails.

Definition mkdirFailsWorld : World :=
  world None (mk_slice [T2; J], None) (Some (errors.New "permission denied"))
        None noGenError.

Definition missingKeyWorld : World :=
  world None (mk_slice [T1; T2; T3], None) None None noGenError.

End Fixtures.

(** * Properties *)

(** ** [strings.Split] on one byte *)

Section SplitFacts.

Variable sep : ascii.

Lemma string_app_assoc (a b c : string) :
  ((a ++ b) ++ c = a ++ (b ++ c))%string.
Proof. induction a as [|x a IH]; simpl; [reflexivity | now rewrite IH]. Qed.

Lemma string_app_empty_r (a : string) : (a ++ "")%string = a.
Proof. induction a as [|x a IH]; simpl; [reflexivity | now rewrite IH]. Qed.

Lemma has_byte_app (a b : string) :
  has_byte sep (a ++ b)%string = has_byte sep a || has_byte sep b.
Proof.
  induction a as [|x a IH]; simpl; [reflexivity|].
  rewrite IH. now rewrite orb_assoc.
Qed.

(** Without a separator the whole string is the one segment. *)
Lemma split_from_no_sep (s seg : string) :
  has_byte sep s = false -> split_from sep seg s = [(seg ++ s)%string].
Proof.
  revert seg. induction s as [|c r IH]; simpl; intros seg H.
  - now rewrite string_app_empty_r.
  - apply orb_false_iff in H as [Hc Hr]. rewrite Hc.
    rewrite (IH _ Hr). now rewrite string_app_assoc.
Qed.

(** The first separator ends the first segment. *)
Lemma split_from_first_sep (a b seg : string) :
  has_byte sep a = false ->
  split_from sep seg (a ++ String sep b)%string
  = (seg ++ a)%string :: split_from sep "" b.
Proof.
  revert seg. induction a as [|c r IH]; simpl; intros seg H.
  - rewrite Ascii.eqb_refl. now rewrite string_app_empty_r.
  - apply orb_false_iff in H as [Hc Hr]. rewrite Hc.
    rewrite (IH _ Hr). now rewrite string_app_assoc.
Qed.

Lemma has_byte_cut (s : string) :
  has_byte sep s = true ->
  exists a b, s = (a ++ String sep b)%string /\ has_byte sep a = false.
Proof.
  induction s as [|c r IH]; simpl; [discriminate|].
  destruct (Ascii.eqb c sep) eqn:Hc; simpl.
  - intros _. apply Ascii.eqb_eq in Hc. subst c.
    exists "", r. split; reflexivity.
  - intros H. destruct (IH H) as (a & b & -> & Ha).
    exists (String c a), b. split; [reflexivity|]. simpl. now rewrite Hc.
Qed.

Lemma split_from_nonempty (s seg : string) : split_from sep seg s <> [].
Proof.
  revert seg. induction s as [|c r IH]; simpl; intros seg; [discriminate|].
  destruct (Ascii.eqb c sep); [discriminate | apply IH].
Qed.

(** One segment exactly when there is no separator. *)
Lemma Split_length_1 (s : string) :
  length (Split s sep) = 1 <-> has_byte sep s = false.
Proof.
  unfold Split. split.
  - destruct (has_byte sep s) eqn:H; [|reflexivity].
    destruct (has_byte_cut s H) as (a & b & -> & Ha).
    rewrite (split_from_first_sep a b "" Ha). simpl.
    pose proof (split_from_nonempty b "") as Hne.
    destruct (split_from sep "" b); [congruence | simpl; discriminate].
  - intros H. now rewrite (split_from_no_sep s "" H).
Qed.

Lemma Split_single (s x : string) : Split s sep = [x] -> x = s.
Proof.
  intros H. assert (Hl : length (Split s sep) = 1) by now rewrite H.
  apply Split_length_1 in Hl. unfold Split in H.
  rewrite (split_from_no_sep s "" Hl) in H. simpl in H. congruence.
Qed.

(** Two segments exactly when the string is [t ++ sep ++ c] with no
    separator in [t] or [c]. *)
Lemma Split_pair (s t c : string) :
  Split s sep = [t; c] <->
  s = (t ++ String sep c)%string
  /\ has_byte sep t = false /\ has_byte sep c = false.
Proof.
  unfold Split. split.
  - intros H.
    destruct (has_byte sep s) eqn:Hs.
    + destruct (has_byte_cut s Hs) as (a & b & -> & Ha).
      rewrite (split_from_first_sep a b "" Ha) in H. simpl in H.
      injection H as Ht Hb. subst a.
      assert (Hl : length (Split b sep) = 1) by (unfold Split; now rewrite Hb).
      apply Split_length_1 in Hl.
      rewrite (split_from_no_sep b "" Hl) in Hb. simpl in Hb.
      injection Hb as Hb. subst b. auto.
    + rewrite (split_from_no_sep s "" Hs) in H. discriminate.
  - intros (-> & Ht & Hc).
    rewrite (split_from_first_sep t c "" Ht). simpl.
    now rewrite (split_from_no_sep c "" Hc).
Qed.

(** Joining the segments with the separator gives the string back. *)
Lemma Join_split_from (s seg : string) :
  Join (split_from sep seg s) (String sep "") = (seg ++ s)%string.
Proof.
  revert seg. induction s as [|c r IH]; intros seg; simpl.
  - now rewrite string_app_empty_r.
  - destruct (Ascii.eqb c sep) eqn:Hc.
    + apply Ascii.eqb_eq in Hc. subst c.
      unfold Join in *. simpl.
      pose proof (split_from_nonempty r "") as Hne.
      specialize (IH "").
      destruct (split_from sep "" r) as [|h tl] eqn:E; [congruence|].
      rewrite IH. reflexivity.
    + rewrite IH. now rewrite string_app_assoc.
Qed.

Lemma Join_Split (s : string) : Join (Split s sep) (String sep "") = s.
Proof. unfold Split. now rewrite Join_split_from. Qed.

End SplitFacts.

(** ** The filter resolver *)

Section FilterResolver.

Import drivers FilterSpec.

Lemma tables_step_elems (tables : slice string) (i : string) :
  elems (tables_step tables i)
  = elems tables ++ (if spec_table_ref i then [i] else []).
Proof.
  unfold tables_step, spec_table_ref.
  destruct (has_byte dot i) eqn:H; simpl.
  - destruct (Nat.eqb (length (Split i dot)) 1) eqn:E.
    + apply Nat.eqb_eq, Split_length_1 in E. congruence.
    + now rewrite app_nil_r.
  - pose proof (proj2 (Split_length_1 dot i) H) as E.
    rewrite E. simpl.
    unfold Split. now rewrite (split_from_no_sep dot i "" H).
Qed.

Lemma tables_loop_elems (l : list string) (tables : slice string) :
  elems (fold_left tables_step l tables)
  = elems tables ++ filter spec_table_ref l.
Proof.
  revert tables. induction l as [|i l IH]; intros tables; simpl.
  - now rewrite app_nil_r.
  - rewrite IH, tables_step_elems.
    destruct (spec_table_ref i); simpl.
    + now rewrite <- app_assoc.
    + now rewrite app_nil_r.
Qed.

Lemma len_0_elems {A} (s : slice A) : len s = 0 -> elems s = [].
Proof. unfold len. destruct (elems s); [reflexivity | discriminate]. Qed.

(** C1: [TablesFromList] returns, in input order, exactly the specifiers
    without a ['.'] (those [strings.Split] leaves in one segment); an input
    of length zero, nil or not, gives the nil slice; and
    [TablesFromList(["a.b","b","c.d"])] is [["b"]]. *)
Theorem TablesFromList_whole_tables :
  (forall specs : slice string,
      elems (TablesFromList specs) = filter spec_table_ref (elems specs))
  /\ (forall s : string,
         spec_table_ref s = true <-> length (Split s dot) = 1)
  /\ (forall specs : slice string,
         len specs = 0 -> TablesFromList specs = nil_slice)
  /\ TablesFromList (mk_slice ["a.b"; "b"; "c.d"]) = mk_slice ["b"].
Proof.
  split; [|split; [|split]].
  - intros specs. unfold TablesFromList.
    destruct (Nat.eqb (len specs) 0) eqn:E.
    + apply Nat.eqb_eq, len_0_elems in E. now rewrite E.
    + now rewrite tables_loop_elems.
  - intros s. unfold spec_table_ref. rewrite Split_length_1.
    destruct (has_byte dot s); simpl; split; congruence.
  - intros specs H. unfold TablesFromList. now rewrite H.
  - reflexivity.
Qed.

Lemma TablesFromList_whole_tables_witness :
  TablesFromList (mk_slice []) = nil_slice
  /\ TablesFromList nil_slice = (nil_slice : slice string).
Proof.
  split.
  - apply (proj1 (proj2 (proj2 TablesFromList_whole_tables)) (mk_slice [])).
    reflexivity.
  - apply (proj1 (proj2 (proj2 TablesFromList_whole_tables)) nil_slice).
    reflexivity.
Defined.

Lemma columns_step_elems (tablename : string) (columns : slice string) (i : string) :
  elems (columns_step tablename columns i)
  = elems columns ++ column_of tablename i.
Proof.
  unfold columns_step, column_of.
  destruct (Split i dot) as [|t [|c [|x r]]]; simpl;
    try now rewrite app_nil_r.
  destruct (String.eqb t tablename || String.eqb t "*"); simpl;
    [reflexivity | now rewrite app_nil_r].
Qed.

Lemma columns_loop_elems (tablename : string) (l : list string) (columns : slice string) :
  elems (fold_left (columns_step tablename) l columns)
  = elems columns ++ flat_map (column_of tablename) l.
Proof.
  revert columns. induction l as [|i l IH]; intros columns; simpl.
  - now rewrite app_nil_r.
  - rewrite IH, columns_step_elems. now rewrite <- app_assoc.
Qed.

Lemma column_of_ref (tablename i c : string) :
  spec_column_ref tablename i c <-> column_of tablename i = [c].
Proof.
  unfold spec_column_ref, column_of. split.
  - intros (t & Hs & Ht & Hc & Hm).
    assert (E : Split i dot = [t; c]) by (apply Split_pair; auto).
    rewrite E.
    destruct Hm as [-> | ->].
    + now rewrite String.eqb_refl.
    + rewrite (String.eqb_refl "*"). now rewrite orb_true_r.
  - destruct (Split i dot) as [|t [|c' [|x r]]] eqn:E; try discriminate.
    destruct (String.eqb t tablename || String.eqb t "*") eqn:Hm; [|discriminate].
    intros H. injection H as ->.
    apply Split_pair in E as (Hs & Ht & Hc).
    exists t. repeat split; auto.
    apply orb_true_iff in Hm as [Hm | Hm]; apply String.eqb_eq in Hm; auto.
Qed.

Lemma column_of_cases (tablename i : string) :
  (exists c, column_of tablename i = [c]) \/ column_of tablename i = [].
Proof.
  unfold column_of.
  destruct (Split i dot) as [|t [|c [|x r]]]; auto.
  destruct (String.eqb t tablename || String.eqb t "*"); eauto.
Qed.

Lemma spec_selects_flat_map (tablename : string) (l : list string) :
  spec_selects tablename l (flat_map (column_of tablename) l).
Proof.
  induction l as [|i l IH]; simpl; [constructor|].
  destruct (column_of_cases tablename i) as [[c E] | E]; rewrite E; simpl.
  - apply selects_take; [now apply column_of_ref | exact IH].
  - apply selects_skip; [|exact IH].
    intros c H. apply column_of_ref in H. congruence.
Qed.

Lemma spec_selects_functional (tablename : string) (l r : list string) :
  spec_selects tablename l r -> r = flat_map (column_of tablename) l.
Proof.
  induction 1 as [|s c l r Hc _ IH|s l r Hn _ IH]; simpl.
  - reflexivity.
  - apply column_of_ref in Hc. rewrite Hc. simpl. now rewrite IH.
  - destruct (column_of_cases tablename s) as [[c E] | E].
    + exfalso. apply (Hn c). now apply column_of_ref.
    + rewrite E. exact IH.
Qed.

(** C2: [ColumnsFromList] returns, in input order, the column segment of
    every specifier [table.column] (two segments) whose table segment is
    [tablename] or ["*"], compared as byte strings, and nothing for any
    other specifier; an input of length zero gives the nil slice; and
    [ColumnsFromList(["*.b","b","c.d"], "c")] is [["b","d"]]. *)
Theorem ColumnsFromList_selects :
  (forall (specs : slice string) (tablename : string) (r : list string),
      spec_selects tablename (elems specs) r
      <-> r = elems (ColumnsFromList specs tablename))
  /\ (forall (specs : slice string) (tablename : string),
         len specs = 0 -> ColumnsFromList specs tablename = nil_slice)
  /\ ColumnsFromList (mk_slice ["*.b"; "b"; "c.d"]) "c" = mk_slice ["b"; "d"].
Proof.
  split; [|split].
  - intros specs tablename r.
    assert (E : elems (ColumnsFromList specs tablename)
                = flat_map (column_of tablename) (elems specs)).
    { unfold ColumnsFromList.
      destruct (Nat.eqb (len specs) 0) eqn:H.
      - apply Nat.eqb_eq, len_0_elems in H. now rewrite H.
      - now rewrite columns_loop_elems. }
    rewrite E. split.
    + apply spec_selects_functional.
    + intros ->. apply spec_selects_flat_map.
  - intros specs tablename H. unfold ColumnsFromList. now rewrite H.
  - reflexivity.
Qed.

Lemma ColumnsFromList_selects_witness :
  spec_selects "c" ["a.b"; "b"; "c.d"; "c.a"] ["d"; "a"]
  /\ ColumnsFromList nil_slice "table" = nil_slice.
Proof.
  split.
  - apply (proj1 ColumnsFromList_selects
                 (mk_slice ["a.b"; "b"; "c.d"; "c.a"]) "c" ["d"; "a"]).
    reflexivity.
  - apply (proj1 (proj2 ColumnsFromList_selects) nil_slice "table").
    reflexivity.
Defined.

(** The cases of [config_test.go]. *)
Example TestTablesFromList :
  TablesFromList nil_slice = (nil_slice : slice string)
  /\ TablesFromList (mk_slice ["a.b"; "b"; "c.d"]) = mk_slice ["b"].
Proof. split; reflexivity. Qed.

Example TestColumnsFromList :
  ColumnsFromList nil_slice "table" = nil_slice
  /\ ColumnsFromList (mk_slice ["a.b"; "b"; "c.d"; "c.a"]) "c" = mk_slice ["d"; "a"]
  /\ len (ColumnsFromList (mk_slice ["a.b"; "b"; "c.d"; "c.a"]) "b") = 0
  /\ ColumnsFromList (mk_slice ["*.b"; "b"; "c.d"]) "c" = mk_slice ["b"; "d"].
Proof. repeat split; reflexivity. Qed.

(** Entries with more than one separator, or with none, give no column;
    an entry without a separator is a table even when it is empty. *)
Example lenient_parse :
  ColumnsFromList (mk_slice ["a.b.c"; "c"; "c."; ".x"]) "c" = mk_slice [""]
  /\ TablesFromList (mk_slice ["a.b.c"; ""; "c."]) = mk_slice [""].
Proof. split; reflexivity. Qed.

End FilterResolver.

(** ** Primary-key validation *)

Section Validation.

Import errors bdb sqlboiler ValidationSpec.

Lemma pkeys_loop_elems (l : list Table) (missingPkey : slice string) :
  elems (fold_left pkeys_step l missingPkey)
  = elems missingPkey ++ missing_names l.
Proof.
  unfold missing_names.
  revert missingPkey. induction l as [|t l IH]; intros acc; simpl.
  - now rewrite app_nil_r.
  - rewrite IH. unfold pkeys_step, lacks_pkey.
    destruct (PKey t); simpl.
    + reflexivity.
    + now rewrite <- app_assoc.
Qed.

Lemma missing_names_nil (l : list Table) :
  missing_names l = [] <-> (forall t, In t l -> PKey t <> None).
Proof.
  unfold missing_names. induction l as [|t l IH]; simpl.
  - split; [intros _ t [] | reflexivity].
  - unfold lacks_pkey at 1. destruct (PKey t) eqn:E; simpl.
    + rewrite IH. split.
      * intros H x [<- | Hx]; [congruence | auto].
      * intros H x Hx. apply H. now right.
    + split; [discriminate|].
      intros H. exfalso. apply (H t); auto.
Qed.

Lemma occurs_in_Join (x sep : string) (l : list string) :
  In x l -> occurs_in x (Join l sep).
Proof.
  unfold occurs_in, Join. induction l as [|y l IH]; simpl; [intros []|].
  intros [-> | Hx].
  - destruct l as [|z l].
    + exists "", "". simpl. now rewrite string_app_empty_r.
    + exists "", (sep ++ String.concat sep (z :: l))%string. reflexivity.
  - destruct l as [|z l]; [destruct Hx|].
    destruct (IH Hx) as (a & b & E). rewrite E.
    exists (y ++ sep ++ a)%string, b.
    now rewrite !string_app_assoc.
Qed.

Lemma checkPKeys_eq (tables : slice Table) :
  checkPKeys tables
  = match missing_names (elems tables) with
    | [] => None
    | names => Some (errors.New ("primary key missing in tables ("
                          ++ Join names ", " ++ ")"))
    end.
Proof.
  unfold checkPKeys, len. rewrite pkeys_loop_elems. simpl.
  destruct (missing_names (elems tables)); reflexivity.
Qed.

(** C3: [checkPKeys] looks at every table: it returns no error exactly
    when every table has a primary key; otherwise it returns one error
    whose message is built from the names of all the tables without a
    primary key, and of no other table, in table order, so that each such
    name occurs in it. *)
Theorem checkPKeys_reports_all_missing :
  forall tables : slice Table,
    (checkPKeys tables = None
     <-> forall t, In t (elems tables) -> PKey t <> None)
    /\ (checkPKeys tables <> None ->
        checkPKeys tables
        = Some (errors.New ("primary key missing in tables ("
                     ++ Join (missing_names (elems tables)) ", " ++ ")")))
    /\ (forall e t,
           checkPKeys tables = Some e ->
           In t (elems tables) -> PKey t = None ->
           occurs_in (Name t) (Error e)).
Proof.
  intros tables. rewrite checkPKeys_eq.
  split; [|split].
  - rewrite <- missing_names_nil.
    destruct (missing_names (elems tables)); split; congruence.
  - destruct (missing_names (elems tables)); [congruence | reflexivity].
  - intros e t He Ht Hp.
    assert (Hin : In (Name t) (missing_names (elems tables))).
    { unfold missing_names. apply in_map, filter_In. split; [exact Ht|].
      unfold lacks_pkey. now rewrite Hp. }
    destruct (missing_names (elems tables)) as [|n ns] eqn:E; [destruct Hin|].
    assert (Ee : e = errors.New ("primary key missing in tables ("
                                 ++ Join (n :: ns) ", " ++ ")")) by congruence.
    subst e. cbn [Error].
    destruct (occurs_in_Join (Name t) ", " (n :: ns) Hin) as (a & b & Hab).
    rewrite Hab.
    exists ("primary key missing in tables (" ++ a)%string, (b ++ ")")%string.
    now rewrite !string_app_assoc.
Qed.

Lemma checkPKeys_reports_all_missing_witness :
  checkPKeys (mk_slice [Fixtures.T1; Fixtures.T2])
  = Some (errors.New "primary key missing in tables (T1)")
  /\ occurs_in "T3" (Error (errors.New "primary key missing in tables (T1, T3)")).
Proof.
  split.
  - apply (proj1 (proj2 (checkPKeys_reports_all_missing
                           (mk_slice [Fixtures.T1; Fixtures.T2])))).
    discriminate.
  - apply (proj2 (proj2 (checkPKeys_reports_all_missing
                           (mk_slice [Fixtures.T1; Fixtures.T2; Fixtures.T3])))
                 (errors.New "primary key missing in tables (T1, T3)") Fixtures.T3).
    + reflexivity.
    + simpl. auto.
    + reflexivity.
Defined.

End Validation.

(** ** The construction sequence *)

Section Construction.

Import errors bdb sqlboiler.

Variable w : World.

Lemma stage_err (m : M (option error)) wrap k s l err s1 :
  m s = (l, Ret (Some err) s1) ->
  stage m wrap k s = (l, Ret (None, Some (wrap err)) s1).
Proof.
  intros H. unfold stage, bind. rewrite H. simpl. now rewrite app_nil_r.
Qed.

Lemma stage_ok (m : M (option error)) wrap k s l s1 :
  m s = (l, Ret None s1) ->
  stage m wrap k s = (l ++ fst (k s1), snd (k s1)).
Proof.
  intros H. unfold stage, bind. rewrite H. now destruct (k s1).
Qed.

Lemma initDriver_unknown (driverName : string) (s : State) :
  String.eqb driverName "postgres" = false ->
  String.eqb driverName "mock" = false ->
  Driver s = None ->
  initDriver driverName s = ([], Ret (Some invalidDriver) s).
Proof.
  intros Hp Hm Hd. unfold initDriver. rewrite Hp, Hm.
  unfold bind, ret, get. simpl. now rewrite Hd.
Qed.

Lemma initDriver_newState (config : Config) :
  initDriver (DriverName config) (newState config)
  = ([], Ret (match selectDriver config with
              | Some _ => None
              | None => Some invalidDriver
              end)
             (withDriver (selectDriver config) (newState config))).
Proof.
  unfold initDriver, selectDriver.
  destruct (String.eqb (DriverName config) "postgres"); [reflexivity|].
  destruct (String.eqb (DriverName config) "mock"); reflexivity.
Qed.

Lemma Driver_Open_eq (s : State) (d : Interface) :
  Driver s = Some d ->
  Driver_Open w s = ([EvOpen d], Ret (driver_Open w d) s).
Proof.
  intros H. unfold Driver_Open, the_Driver, bind, get, emit, ret. simpl.
  now rewrite H.
Qed.

Lemma initTables_eq (exclude : slice string) (s : State) (d : Interface) :
  Driver s = Some d ->
  initTables w exclude s
  = ([EvTables d (elems exclude)],
     Ret (tablesError (bdb_Tables w d (elems exclude)))
         (withTables (fst (bdb_Tables w d (elems exclude))) s)).
Proof.
  intros H. unfold initTables, tablesError, the_Driver, set_Tables.
  unfold bind, get, put, emit, ret. simpl. rewrite H. simpl.
  destruct (bdb_Tables w d (elems exclude)) as [ts [err|]]; simpl; [reflexivity|].
  destruct (Nat.eqb (len ts) 0); [reflexivity|].
  destruct (checkPKeys ts); reflexivity.
Qed.

Lemma initOutFolder_eq (s : State) :
  initOutFolder w s
  = ([EvMkdirAll (OutFolder (Config_ s))],
     Ret (os_MkdirAll w (OutFolder (Config_ s))) s).
Proof. reflexivity. Qed.

Lemma getBasePath_inv (base : string) (s : State) :
  exists l r,
    getBasePath w base s = (l, Ret r s) /\ forallb (fun e => negb (is_Close e)) l = true.
Proof.
  unfold getBasePath.
  destruct (Nat.ltb 0 (String.length base)); [now eexists _, _|].
  unfold bind, emit, ret. simpl.
  destruct (build_Import w basePackage) as [p|]; simpl.
  - destruct (Nat.ltb 0 (String.length (Dir p))); now eexists _, _.
  - now eexists _, _.
Qed.

(** Template loading returns, and touches neither the driver, the tables
    nor the configuration. *)
Lemma initTemplates_inv (s : State) :
  exists l e s',
    initTemplates w s = (l, Ret e s')
    /\ Driver s' = Driver s /\ Tables s' = Tables s /\ Config_ s' = Config_ s
    /\ forallb (fun e => negb (is_Close e)) l = true.
Proof.
  unfold initTemplates.
  destruct (getBasePath_inv (BaseDir (Config_ s)) s) as (l0 & [bp e0] & H0 & Hl0).
  unfold bind at 1. unfold get at 1. cbv iota beta.
  unfold bind at 1. rewrite H0. cbv iota beta. simpl fst. simpl snd.
  destruct e0 as [err|].
  { unfold ret. eexists _, _, _. split; [reflexivity|].
    rewrite app_nil_r. simpl. auto. }
  unfold call_loadTemplates, call_loadTemplate, set_Templates,
    set_SingletonTemplates, set_TestTemplates, set_SingletonTestTemplates,
    set_TestMainTemplate, bind, get, put, emit, ret.
  simpl.
  repeat match goal with
         | |- context [loadTemplates w ?d] =>
             let t := fresh "t" in let e := fresh "e" in
             destruct (loadTemplates w d) as [t [e|]]; simpl
         | |- context [loadTemplate w ?d ?n] =>
             let t := fresh "t" in let e := fresh "e" in
             destruct (loadTemplate w d n) as [t [e|]]; simpl
         end;
    eexists _, _, _; (split; [reflexivity|]); simpl;
    repeat split; rewrite ?forallb_app, ?Hl0; reflexivity.
Qed.

End Construction.

Section NewOutcome.

Import errors bdb sqlboiler.

Variable w : World.

(** [New] returns; it returns a state or an error, never both; it never
    calls [Close]; and the struct it worked on holds the selected driver. *)
Lemma New_outcome (config : Config) :
  exists l st e s',
    sqlboiler.New w config = (l, Ret (st, e) s')
    /\ forallb (fun ev => negb (is_Close ev)) l = true
    /\ Driver s' = selectDriver config
    /\ match e with
       | Some _ => st = None
       | None =>
           st = Some s' /\ Driver s' <> None
           /\ len (Tables s') <> 0 /\ checkPKeys (Tables s') = None
       end.
Proof.
  unfold sqlboiler.New.
  pose proof (initDriver_newState config) as H1.
  destruct (selectDriver config) as [d|] eqn:Hd.
  2:{ rewrite (stage_err _ _ _ _ _ _ _ H1). eexists _, _, _, _.
      split; [reflexivity|]. repeat split. }
  rewrite (stage_ok _ _ _ _ _ _ H1). simpl app.
  set (s1 := withDriver (Some d) (newState config)).
  assert (Hs1 : Driver s1 = Some d) by reflexivity.
  pose proof (Driver_Open_eq w s1 d Hs1) as H2.
  destruct (driver_Open w d) as [err|].
  { rewrite (stage_err _ _ _ _ _ _ _ H2). eexists _, _, _, _.
    split; [reflexivity|]. repeat split. }
  rewrite (stage_ok _ _ _ _ _ _ H2). cbn [fst snd].
  pose proof (initTables_eq w (ExcludeTables config) s1 d Hs1) as H3.
  set (r := bdb_Tables w d (elems (ExcludeTables config))) in *.
  set (s2 := withTables (fst r) s1) in *.
  destruct (tablesError r) as [err|] eqn:Ht.
  { rewrite (stage_err _ _ _ _ _ _ _ H3). eexists _, _, _, _.
    split; [reflexivity|]. repeat split. }
  rewrite (stage_ok _ _ _ _ _ _ H3). cbn [fst snd].
  pose proof (initOutFolder_eq w s2) as H4.
  destruct (os_MkdirAll w (OutFolder (Config_ s2))) as [err|].
  { rewrite (stage_err _ _ _ _ _ _ _ H4). eexists _, _, _, _.
    split; [reflexivity|]. repeat split. }
  rewrite (stage_ok _ _ _ _ _ _ H4). cbn [fst snd].
  destruct (initTemplates_inv w s2) as (l5 & e5 & s5 & H5 & HD & HT & _ & Hl5).
  destruct e5 as [err|].
  { rewrite (stage_err _ _ _ _ _ _ _ H5). eexists _, _, _, _.
    split; [reflexivity|].
    split; [simpl; rewrite ?forallb_app, ?Hl5; reflexivity|].
    split; [rewrite HD; reflexivity | reflexivity]. }
  rewrite (stage_ok _ _ _ _ _ _ H5).
  unfold bind, get, ret. cbn [fst snd].
  eexists _, _, _, _. split; [reflexivity|].
  split; [simpl; rewrite ?forallb_app, ?Hl5; reflexivity|].
  split; [rewrite HD; reflexivity|].
  split; [reflexivity|].
  split; [rewrite HD; discriminate|].
  rewrite HT. unfold tablesError in Ht. subst s2. simpl.
  destruct (snd r); [discriminate|].
  destruct (Nat.eqb (len (fst r)) 0) eqn:E; [discriminate|].
  split; [now apply Nat.eqb_neq | exact Ht].
Qed.

End NewOutcome.

Section ConstructionClaims.

Import errors bdb sqlboiler.

(** C4: when [bdb.Tables] returns no table (and no error), [initTables]
    fails with "no tables found in database"; [New] then returns nil and
    that error wrapped, having called only [Open] and [bdb.Tables], so no
    later stage runs; and no state that [New] returns has an empty table
    list. *)
Theorem New_rejects_empty_schema :
  forall (w : World) (config : Config),
    (forall (exclude : slice string) (s : State) (d : Interface),
        Driver s = Some d ->
        snd (bdb_Tables w d (elems exclude)) = None ->
        len (fst (bdb_Tables w d (elems exclude))) = 0 ->
        value (initTables w exclude s)
        = Some (Some (errors.New "no tables found in database")))
    /\ (forall d : Interface,
           selectDriver config = Some d ->
           driver_Open w d = None ->
           snd (bdb_Tables w d (elems (ExcludeTables config))) = None ->
           len (fst (bdb_Tables w d (elems (ExcludeTables config)))) = 0 ->
           value (sqlboiler.New w config)
           = Some (None, Some (Wrap (errors.New "no tables found in database")
                                    "unable to initialize tables"))
           /\ trace (sqlboiler.New w config)
              = [EvOpen d; EvTables d (elems (ExcludeTables config))]
           /\ existsb is_late_stage (trace (sqlboiler.New w config)) = false)
    /\ (forall (s : State) (e : option error),
           value (sqlboiler.New w config) = Some (Some s, e) ->
           len (Tables s) <> 0).
Proof.
  intros w config. split; [|split].
  - intros exclude s d Hd He Hl.
    rewrite (initTables_eq w exclude s d Hd). unfold value, tablesError.
    simpl. now rewrite He, Hl.
  - intros d Hd Ho He Hl.
    assert (E : sqlboiler.New w config
                = ([EvOpen d; EvTables d (elems (ExcludeTables config))],
                   Ret (None, Some (Wrap (errors.New "no tables found in database")
                                         "unable to initialize tables"))
                       (withTables (fst (bdb_Tables w d (elems (ExcludeTables config))))
                                   (withDriver (Some d) (newState config))))).
    { unfold sqlboiler.New.
      pose proof (initDriver_newState config) as H1. rewrite Hd in H1.
      rewrite (stage_ok _ _ _ _ _ _ H1). simpl app.
      set (s1 := withDriver (Some d) (newState config)).
      pose proof (Driver_Open_eq w s1 d eq_refl) as H2. rewrite Ho in H2.
      rewrite (stage_ok _ _ _ _ _ _ H2). cbn [fst snd].
      pose proof (initTables_eq w (ExcludeTables config) s1 d eq_refl) as H3.
      unfold tablesError in H3. rewrite He, Hl in H3. simpl in H3.
      rewrite (stage_err _ _ _ _ _ _ _ H3). reflexivity. }
    rewrite E. repeat split.
  - intros s e H.
    destruct (New_outcome w config) as (l & st & e' & s' & E & _ & _ & Hc).
    rewrite E in H. unfold value in H. simpl in H.
    injection H as -> ->.
    destruct e as [err|]; [discriminate|].
    destruct Hc as (Hs & _ & Hl & _). injection Hs as ->. exact Hl.
Qed.

Lemma New_rejects_empty_schema_witness :
  value (sqlboiler.New Fixtures.emptySchemaWorld Fixtures.mockConfig)
  = Some (None, Some (Wrap (errors.New "no tables found in database")
                           "unable to initialize tables"))
  /\ len (Tables Fixtures.builtState) <> 0.
Proof.
  split.
  - apply (proj1 (proj2 (New_rejects_empty_schema
                           Fixtures.emptySchemaWorld Fixtures.mockConfig))
                 MockDriver); reflexivity.
  - apply (proj2 (proj2 (New_rejects_empty_schema
                           Fixtures.okWorld Fixtures.mockConfig))
                 Fixtures.builtState None).
    reflexivity.
Defined.

End ConstructionClaims.

Section DriverSelection.

Import errors bdb sqlboiler.

Lemma eqb_neq_false (a b : string) : a <> b -> String.eqb a b = false.
Proof. intros H. now apply String.eqb_neq. Qed.

(** C6: for every driver name other than "postgres" and "mock",
    [initDriver], on a state without a driver, returns the error "An
    invalid driver name was provided" and leaves the state without a
    driver; [New] with such a name returns nil and that error without
    having called [Open] or anything else. *)
Theorem initDriver_rejects_unknown_names :
  forall (w : World) (config : Config) (driverName : string),
    driverName <> "postgres" ->
    driverName <> "mock" ->
    (forall s : State,
        Driver s = None ->
        value (initDriver driverName s)
        = Some (Some (errors.New "An invalid driver name was provided"))
        /\ exists s', final (initDriver driverName s) = Some s' /\ Driver s' = None)
    /\ (DriverName config = driverName ->
        value (sqlboiler.New w config)
        = Some (None, Some (errors.New "An invalid driver name was provided"))
        /\ trace (sqlboiler.New w config) = []
        /\ exists s', final (sqlboiler.New w config) = Some s' /\ Driver s' = None).
Proof.
  intros w config driverName Hp Hm.
  apply eqb_neq_false in Hp, Hm. split.
  - intros s Hd. rewrite (initDriver_unknown driverName s Hp Hm Hd).
    split; [reflexivity|]. exists s. split; [reflexivity | exact Hd].
  - intros <-.
    assert (E : sqlboiler.New w config
                = ([], Ret (None, Some invalidDriver) (newState config))).
    { unfold sqlboiler.New.
      pose proof (initDriver_unknown (DriverName config) (newState config)
                                     Hp Hm eq_refl) as H.
      now rewrite (stage_err _ _ _ _ _ _ _ H). }
    rewrite E. split; [reflexivity|]. split; [reflexivity|].
    exists (newState config). split; reflexivity.
Qed.

Lemma initDriver_rejects_unknown_names_witness :
  value (initDriver "mysql" (newState Fixtures.mockConfig))
  = Some (Some (errors.New "An invalid driver name was provided"))
  /\ exists s', final (initDriver "mysql" (newState Fixtures.mockConfig)) = Some s'
                /\ Driver s' = None.
Proof.
  apply (proj1 (initDriver_rejects_unknown_names
                  Fixtures.okWorld Fixtures.mockConfig "mysql"
                  ltac:(discriminate) ltac:(discriminate))
               (newState Fixtures.mockConfig)).
  reflexivity.
Defined.

End DriverSelection.

Section FailedConstruction.

Import errors bdb sqlboiler.

(** C8, as stated, fails when [Open] fails: the driver was selected, yet
    [New] returns nil, not a state. *)
Lemma New_after_failed_Open_returns_nil :
  selectDriver Fixtures.mockConfig = Some MockDriver
  /\ driver_Open Fixtures.openFailsWorld MockDriver <> None
  /\ value (sqlboiler.New Fixtures.openFailsWorld Fixtures.mockConfig)
     = Some (None, Some (Wrap (errors.New "connection refused")
                              "unable to connect to the database"))
  /\ ~ (exists s e,
           value (sqlboiler.New Fixtures.openFailsWorld Fixtures.mockConfig)
           = Some (Some s, e)).
Proof.
  split; [reflexivity|]. split; [discriminate|]. split; [reflexivity|].
  intros (s & e & H). discriminate H.
Qed.

(** C8, amended: whenever [New] returns an error it returns nil for the
    state; if the driver had been selected, the struct that holds it is
    not handed to the caller, and [New] has not called [Close] on it. *)
Theorem New_error_returns_no_State :
  forall (w : World) (config : Config) (st : option State) (e : error),
    value (sqlboiler.New w config) = Some (st, Some e) ->
    st = None
    /\ (exists s', final (sqlboiler.New w config) = Some s'
                   /\ Driver s' = selectDriver config)
    /\ existsb is_Close (trace (sqlboiler.New w config)) = false.
Proof.
  intros w config st e H.
  destruct (New_outcome w config) as (l & st' & e' & s' & E & Hl & Hd & Hc).
  rewrite E in *. unfold value, final, trace in *. simpl in *.
  injection H as -> ->.
  split; [exact Hc|]. split; [now exists s'|].
  clear -Hl. induction l as [|ev l IH]; simpl in *; [reflexivity|].
  apply andb_true_iff in Hl as [H1 H2].
  rewrite (IH H2). destruct (is_Close ev); [discriminate | reflexivity].
Qed.

Lemma New_error_returns_no_State_witness :
  (None : option State) = None
  /\ (exists s', final (sqlboiler.New Fixtures.openFailsWorld Fixtures.mockConfig) = Some s'
                 /\ Driver s' = selectDriver Fixtures.mockConfig)
  /\ existsb is_Close (trace (sqlboiler.New Fixtures.openFailsWorld Fixtures.mockConfig))
     = false.
Proof.
  apply (New_error_returns_no_State
           Fixtures.openFailsWorld Fixtures.mockConfig None
           (Wrap (errors.New "connection refused")
                 "unable to connect to the database")).
  reflexivity.
Defined.

End FailedConstruction.

(** ** Base path, cleanup and defaults *)

Section BasePath.

Import errors bdb sqlboiler.

Lemma nonempty_length (s : string) : s <> "" <-> Nat.ltb 0 (String.length s) = true.
Proof.
  destruct s; simpl; split; try congruence; try discriminate.
  intros _. reflexivity.
Qed.

Lemma empty_length (s : string) : s = "" <-> Nat.ltb 0 (String.length s) = false.
Proof.
  destruct s; simpl; split; try congruence; try discriminate.
  intros _. reflexivity.
Qed.

(** C9, as stated, fails: without a configured base directory, and with
    the package found by the Go build context, [getBasePath] returns the
    directory where the package is installed, not the working directory. *)
Lemma getBasePath_prefers_install_location :
  value (getBasePath Fixtures.gopathWorld "" Fixtures.readyState)
  = Some ("/go/src/github.com/vattle/sqlboiler", None)
  /\ os_Getwd Fixtures.gopathWorld = ("/work", None)
  /\ value (getBasePath Fixtures.gopathWorld "" Fixtures.readyState)
     <> Some (os_Getwd Fixtures.gopathWorld).
Proof.
  split; [reflexivity|]. split; [reflexivity|]. discriminate.
Qed.

(** C9, amended: [getBasePath] returns the configured base directory when
    it is not empty; otherwise the directory of the installed package
    [basePackage] when the build context reports one that is not empty;
    and only otherwise the result of [os.Getwd]. *)
Theorem getBasePath_resolution :
  forall (w : World) (baseDirConfig : string) (s : State),
    (baseDirConfig <> "" ->
     getBasePath w baseDirConfig s = ([], Ret (baseDirConfig, None) s))
    /\ (forall p : Package,
           baseDirConfig = "" ->
           build_Import w basePackage = Some p ->
           Dir p <> "" ->
           getBasePath w baseDirConfig s
           = ([EvImport basePackage], Ret (Dir p, None) s))
    /\ (baseDirConfig = "" ->
        (build_Import w basePackage = None
         \/ exists p, build_Import w basePackage = Some p /\ Dir p = "") ->
        getBasePath w baseDirConfig s
        = ([EvImport basePackage; EvGetwd], Ret (os_Getwd w) s)).
Proof.
  intros w baseDirConfig s. unfold getBasePath. split; [|split].
  - intros H. apply nonempty_length in H. now rewrite H.
  - intros p H Hp Hd. apply empty_length in H. rewrite H.
    apply nonempty_length in Hd.
    unfold bind, emit, ret. simpl. rewrite Hp, Hd. reflexivity.
  - intros H Hp. apply empty_length in H. rewrite H.
    unfold bind, emit, ret. simpl.
    destruct Hp as [Hp | (p & Hp & Hd)]; rewrite Hp.
    + reflexivity.
    + apply empty_length in Hd. rewrite Hd. reflexivity.
Qed.

Lemma getBasePath_resolution_witness :
  getBasePath Fixtures.okWorld "/opt/boil" Fixtures.readyState
  = ([], Ret ("/opt/boil", None) Fixtures.readyState)
  /\ getBasePath Fixtures.gopathWorld "" Fixtures.readyState
     = ([EvImport basePackage],
        Ret ("/go/src/github.com/vattle/sqlboiler", None) Fixtures.readyState)
  /\ getBasePath Fixtures.okWorld "" Fixtures.readyState
     = ([EvImport basePackage; EvGetwd], Ret ("/work", None) Fixtures.readyState).
Proof.
  split; [|split].
  - apply (proj1 (getBasePath_resolution Fixtures.okWorld "/opt/boil"
                                         Fixtures.readyState)).
    discriminate.
  - apply (proj1 (proj2 (getBasePath_resolution Fixtures.gopathWorld ""
                                                Fixtures.readyState))
                 {| Dir := "/go/src/github.com/vattle/sqlboiler" |});
      [reflexivity | reflexivity | discriminate].
  - apply (proj2 (proj2 (getBasePath_resolution Fixtures.okWorld ""
                                                Fixtures.readyState)));
      [reflexivity | left; reflexivity].
Defined.

End BasePath.

Section CleanupClaims.

Import errors bdb sqlboiler.

(** C10: [Cleanup] never returns an error, on any state; on a state with
    a driver it calls the driver's [Close] once and returns nil whatever
    that close reports. *)
Theorem Cleanup_returns_nil :
  forall (w : World) (s : State),
    (forall e : error, value (Cleanup w s) <> Some (Some e))
    /\ (forall (d : Interface) (failure : option error),
           Driver s = Some d ->
           driver_Close w d = failure ->
           Cleanup w s = ([EvClose d], Ret None s)).
Proof.
  intros w s. unfold Cleanup, Driver_Close, the_Driver.
  unfold bind, get, emit, ret, panic, value. simpl. split.
  - intros e. destruct (Driver s); simpl; discriminate.
  - intros d failure Hd _. now rewrite Hd.
Qed.

Lemma Cleanup_returns_nil_witness :
  Cleanup Fixtures.okWorld Fixtures.readyState
  = ([EvClose MockDriver], Ret None Fixtures.readyState).
Proof.
  apply (proj2 (Cleanup_returns_nil Fixtures.okWorld Fixtures.readyState)
               MockDriver (Some (errors.New "close failed")));
    reflexivity.
Defined.

End CleanupClaims.

Section Defaults.

Import drivers.

Local Open Scope Z_scope.

(** C7, as stated, fails for a negative value: [DefaultInt] returns it,
    not the default. *)
Lemma DefaultInt_keeps_negative :
  -1 <= 0 /\ DefaultInt (-1) 10 = -1 /\ DefaultInt (-1) 10 <> 10.
Proof. split; [lia|]. split; [reflexivity | discriminate]. Qed.

(** C7, amended: [DefaultInt] returns the default for the value zero, and
    for every other value, positive or negative, the value itself. *)
Theorem DefaultInt_zero_only :
  forall value def : Z,
    DefaultInt 0 def = def
    /\ (0 < value -> DefaultInt value def = value)
    /\ (value <> 0 -> DefaultInt value def = value).
Proof.
  intros value def. unfold DefaultInt. split; [reflexivity|].
  split; intros H; destruct (Z.eqb_spec value 0); try reflexivity; lia.
Qed.

Lemma DefaultInt_zero_only_witness :
  DefaultInt 4 10 = 4 /\ DefaultInt (-3) 10 = -3.
Proof.
  split.
  - apply (proj1 (proj2 (DefaultInt_zero_only 4 10))). lia.
  - apply (proj2 (proj2 (DefaultInt_zero_only (-3) 10))). lia.
Defined.

End Defaults.

(** ** Rendering *)

(** A literal list of calls, each of which is among the hypotheses. *)
Ltac each_call :=
  repeat (apply Forall_cons; [assumption|]); apply Forall_nil.

Section Rendering.

Import errors bdb sqlboiler RunSpec.

Variable w : World.

Lemma Driver_UseLastInsertID_eq (s : State) (d : Interface) :
  Driver s = Some d ->
  Driver_UseLastInsertID w s
  = ([EvUseLastInsertID d], Ret (driver_UseLastInsertID w d) s).
Proof.
  intros H. unfold Driver_UseLastInsertID, the_Driver, bind, get, emit, ret.
  simpl. now rewrite H.
Qed.

Lemma Driver_UseLastInsertID_nil (s : State) :
  Driver s = None -> Driver_UseLastInsertID w s = ([], Panic).
Proof.
  intros H. unfold Driver_UseLastInsertID, the_Driver, bind, get, panic.
  simpl. now rewrite H.
Qed.

(** The loop on a table that is not a join table. *)
Lemma runTables_cons (includeTests : bool) (table : Table) (rest : list Table)
      (s : State) (d : Interface) :
  IsJoinTable table = false ->
  Driver s = Some d ->
  let data := tableData s table (driver_UseLastInsertID w d) in
  runTables w includeTests (table :: rest) s
  = match generate w Output s data with
    | Some err =>
        ([EvUseLastInsertID d; EvGenerate Output data],
         Ret (Some (Wrap err "unable to generate output")) s)
    | None =>
        if includeTests then
          match generate w TestOutput s data with
          | Some err =>
              ([EvUseLastInsertID d; EvGenerate Output data;
                EvGenerate TestOutput data],
               Ret (Some (Wrap err "unable to generate test output")) s)
          | None =>
              ([EvUseLastInsertID d; EvGenerate Output data;
                EvGenerate TestOutput data]
                 ++ fst (runTables w includeTests rest s),
               snd (runTables w includeTests rest s))
          end
        else
          ([EvUseLastInsertID d; EvGenerate Output data]
             ++ fst (runTables w includeTests rest s),
           snd (runTables w includeTests rest s))
    end.
Proof.
  intros Hj Hd data. cbn [runTables]. rewrite Hj.
  unfold bind at 1. unfold get at 1. cbv iota beta.
  unfold bind at 1. rewrite (Driver_UseLastInsertID_eq s d Hd). cbv iota beta.
  fold data.
  unfold check, call_generate, bind, get, emit, ret. simpl.
  destruct (generate w Output s data) as [err|]; simpl; [reflexivity|].
  destruct includeTests; simpl.
  - destruct (generate w TestOutput s data) as [err|]; simpl; [reflexivity|].
    destruct (runTables w true rest s) as [l r]. reflexivity.
  - destruct (runTables w false rest s) as [l r]. reflexivity.
Qed.

Lemma runTables_nil_driver (includeTests : bool) (tables : list Table) (s : State) :
  Driver s = None ->
  fst (runTables w includeTests tables s) = [].
Proof.
  intros Hd. induction tables as [|table rest IH]; [reflexivity|].
  cbn [runTables]. destruct (IsJoinTable table); [exact IH|].
  unfold bind at 1. unfold get at 1. cbv iota beta.
  unfold bind at 1. rewrite (Driver_UseLastInsertID_nil s Hd). reflexivity.
Qed.

(** Every call the loop makes is a permitted one. *)
Lemma runTables_render_ok (includeTests : bool) (tables : list Table) (s : State) :
  (forall t, In t tables -> In t (elems (Tables s))) ->
  Forall (render_ok s includeTests) (fst (runTables w includeTests tables s)).
Proof.
  destruct (Driver s) as [d|] eqn:Hd.
  2:{ intros _. rewrite (runTables_nil_driver _ _ _ Hd). constructor. }
  induction tables as [|table rest IH]; intros Hin; [constructor|].
  assert (IHr : Forall (render_ok s includeTests)
                       (fst (runTables w includeTests rest s))).
  { apply IH. intros t Ht. apply Hin. now right. }
  destruct (IsJoinTable table) eqn:Hj.
  { cbn [runTables]. rewrite Hj. exact IHr. }
  rewrite (runTables_cons includeTests table rest s d Hj Hd).
  assert (Hout : render_ok s includeTests
                   (EvGenerate Output
                      (tableData s table (driver_UseLastInsertID w d)))).
  { simpl. split; [reflexivity|]. split; [|discriminate].
    intros _. split; [apply Hin; now left | exact Hj]. }
  assert (Htest : includeTests = true ->
                  render_ok s includeTests
                    (EvGenerate TestOutput
                       (tableData s table (driver_UseLastInsertID w d)))).
  { intros Hi. simpl. split; [reflexivity|]. split; [|intros _; exact Hi].
    intros _. split; [apply Hin; now left | exact Hj]. }
  assert (Huse : render_ok s includeTests (EvUseLastInsertID d)) by exact I.
  destruct (generate w Output s _) as [err|]; cbn [fst].
  { each_call. }
  destruct includeTests; cbn [fst].
  - specialize (Htest eq_refl).
    destruct (generate w TestOutput s _) as [err|]; cbn [fst].
    + each_call.
    + apply Forall_app. split; [each_call | exact IHr].
  - apply Forall_app. split; [each_call | exact IHr].
Qed.

(** When no generator fails the loop makes exactly the calls of the
    tables that are not join tables, and returns nil. *)
Lemma runTables_all_ok (includeTests : bool) (tables : list Table)
      (s : State) (d : Interface) :
  Driver s = Some d ->
  (forall g data, generate w g s data = None) ->
  runTables w includeTests tables s
  = (flat_map (table_calls w s d includeTests)
              (filter (fun t => negb (IsJoinTable t)) tables),
     Ret None s).
Proof.
  intros Hd Hg. induction tables as [|table rest IH]; [reflexivity|].
  destruct (IsJoinTable table) eqn:Hj.
  { cbn [runTables filter]. rewrite Hj. exact IH. }
  rewrite (runTables_cons includeTests table rest s d Hj Hd).
  cbn [filter]. rewrite Hj. cbn [negb flat_map].
  rewrite !Hg, IH. unfold table_calls. cbn [fst snd].
  destruct includeTests; reflexivity.
Qed.

End Rendering.

Section RunClaims.

Import errors bdb sqlboiler RunSpec.

(** C5: in every [Run], whatever fails, each generator is given the
    whole table list of the state, join tables included; the per-table
    generators are called only for tables of the list whose [IsJoinTable]
    is false; the three test generators are called only when
    [includeTests] is true.  When no generator fails, [Run] makes exactly
    the singleton calls followed by the calls of each table that is not a
    join table, with the test calls if and only if [includeTests], and
    returns nil. *)
Theorem Run_skips_join_tables :
  forall (w : World) (s : State) (includeTests : bool),
    Forall (render_ok s includeTests) (trace (Run w includeTests s))
    /\ (forall d : Interface,
           Driver s = Some d ->
           (forall g data, generate w g s data = None) ->
           Run w includeTests s = (run_calls w s d includeTests, Ret None s)).
Proof.
  intros w s includeTests. split.
  - pose proof (runTables_render_ok w includeTests (elems (Tables s)) s
                                    (fun t H => H)) as HL.
    unfold trace, Run.
    unfold bind at 1. unfold get at 1. cbv iota beta.
    unfold bind at 1.
    destruct (Driver s) as [d|] eqn:Hd.
    2:{ rewrite (Driver_UseLastInsertID_nil w s Hd). constructor. }
    rewrite (Driver_UseLastInsertID_eq w s d Hd). cbv iota beta.
    set (sd := tableData s zeroTable (driver_UseLastInsertID w d)).
    assert (Huse : render_ok s includeTests (EvUseLastInsertID d)) by exact I.
    assert (Hsing : render_ok s includeTests (EvGenerate SingletonOutput sd)).
    { simpl. repeat split; discriminate. }
    assert (Hmain : includeTests = true ->
                    render_ok s includeTests (EvGenerate TestMainOutput sd)).
    { intros Hi. simpl. split; [reflexivity|]. split; [discriminate|].
      intros _. exact Hi. }
    assert (Hstest : includeTests = true ->
                     render_ok s includeTests (EvGenerate SingletonTestOutput sd)).
    { intros Hi. simpl. split; [reflexivity|]. split; [discriminate|].
      intros _. exact Hi. }
    unfold check, call_generate, bind, get, emit, ret. simpl.
    destruct (generate w SingletonOutput s sd) as [err|]; simpl; [each_call|].
    destruct includeTests; simpl.
    + specialize (Hmain eq_refl). specialize (Hstest eq_refl).
      destruct (generate w TestMainOutput s sd) as [err|]; simpl; [each_call|].
      destruct (generate w SingletonTestOutput s sd) as [err|]; simpl; [each_call|].
      destruct (runTables w true (elems (Tables s)) s) as [l r]. simpl in *.
      repeat (apply Forall_cons; [assumption|]). exact HL.
    + destruct (runTables w false (elems (Tables s)) s) as [l r]. simpl in *.
      repeat (apply Forall_cons; [assumption|]). exact HL.
  - intros d Hd Hg.
    unfold Run.
    unfold bind at 1. unfold get at 1. cbv iota beta.
    unfold bind at 1.
    rewrite (Driver_UseLastInsertID_eq w s d Hd). cbv iota beta.
    unfold check, call_generate, bind, get, emit, ret. simpl.
    rewrite !Hg.
    destruct includeTests; simpl; rewrite ?Hg; simpl;
      rewrite (runTables_all_ok w _ (elems (Tables s)) s d Hd Hg);
      reflexivity.
Qed.

Lemma Run_skips_join_tables_witness :
  Run Fixtures.okWorld true Fixtures.readyState
  = (run_calls Fixtures.okWorld Fixtures.readyState MockDriver true,
     Ret None Fixtures.readyState).
Proof.
  apply (proj2 (Run_skips_join_tables Fixtures.okWorld Fixtures.readyState true)
               MockDriver).
  - reflexivity.
  - intros g data. reflexivity.
Defined.

End RunClaims.

(** * Further properties *)

(** ** The filter resolver: nil results, composition, lenient parsing *)

Section FilterResolverMore.

Import drivers FilterSpec.

Lemma split_from_length (sep : ascii) (s seg : string) :
  length (split_from sep seg s) = S (count_byte sep s).
Proof.
  revert seg. induction s as [|c r IH]; intros seg; simpl; [reflexivity|].
  destruct (Ascii.eqb c sep); simpl; now rewrite IH.
Qed.

Lemma has_byte_count (sep : ascii) (s : string) :
  has_byte sep s = false <-> count_byte sep s = 0.
Proof.
  induction s as [|c r IH]; simpl; [tauto|].
  destruct (Ascii.eqb c sep); simpl; [split; discriminate | exact IH].
Qed.

(** A loop of conditional [append]s, started from any slice. *)
Lemma append_loop_shape {A} (step : slice string -> A -> slice string)
      (contrib : A -> list string) :
  (forall acc i,
      step acc i = match contrib i with
                   | [] => acc
                   | _ :: _ => mk_slice (elems acc ++ contrib i)
                   end) ->
  forall l acc,
    fold_left step l acc
    = match flat_map contrib l with
      | [] => acc
      | _ :: _ => mk_slice (elems acc ++ flat_map contrib l)
      end.
Proof.
  intros Hstep. induction l as [|i l IH]; intros acc; simpl; [reflexivity|].
  rewrite IH, Hstep.
  destruct (contrib i) as [|x xs] eqn:Ei; simpl; [reflexivity|].
  destruct (flat_map contrib l) as [|y ys]; simpl.
  - now rewrite app_nil_r.
  - now rewrite <- app_assoc.
Qed.

Lemma flat_map_table_of (l : list string) :
  flat_map table_of l = filter spec_table_ref l.
Proof.
  induction l as [|i l IH]; simpl; [reflexivity|].
  unfold table_of at 1. fold (spec_table_ref i).
  destruct (spec_table_ref i); simpl; now rewrite IH.
Qed.

Lemma tables_step_shape (acc : slice string) (i : string) :
  tables_step acc i = match table_of i with
                      | [] => acc
                      | _ :: _ => mk_slice (elems acc ++ table_of i)
                      end.
Proof.
  unfold tables_step, table_of, spec_table_ref.
  destruct (has_byte dot i) eqn:H; simpl.
  - destruct (Nat.eqb (length (Split i dot)) 1) eqn:E; [|reflexivity].
    apply Nat.eqb_eq, Split_length_1 in E. congruence.
  - rewrite (proj2 (Split_length_1 dot i) H). simpl.
    unfold Split. rewrite (split_from_no_sep dot i "" H). reflexivity.
Qed.

Lemma columns_step_shape (tablename : string) (acc : slice string) (i : string) :
  columns_step tablename acc i
  = match column_of tablename i with
    | [] => acc
    | _ :: _ => mk_slice (elems acc ++ column_of tablename i)
    end.
Proof.
  unfold columns_step, column_of.
  destruct (Split i dot) as [|t [|c [|x r]]]; simpl; try reflexivity.
  destruct (String.eqb t tablename || String.eqb t "*"); reflexivity.
Qed.

Lemma TablesFromList_appended (specs : slice string) :
  TablesFromList specs = appended (filter spec_table_ref (elems specs)).
Proof.
  unfold TablesFromList.
  destruct (Nat.eqb (len specs) 0) eqn:E.
  - apply Nat.eqb_eq, len_0_elems in E. now rewrite E.
  - rewrite (append_loop_shape tables_step table_of tables_step_shape).
    rewrite flat_map_table_of.
    now destruct (filter spec_table_ref (elems specs)).
Qed.

Lemma ColumnsFromList_appended (specs : slice string) (tablename : string) :
  ColumnsFromList specs tablename
  = appended (flat_map (column_of tablename) (elems specs)).
Proof.
  unfold ColumnsFromList.
  destruct (Nat.eqb (len specs) 0) eqn:E.
  - apply Nat.eqb_eq, len_0_elems in E. now rewrite E.
  - rewrite (append_loop_shape (columns_step tablename) (column_of tablename)
                               (columns_step_shape tablename)).
    now destruct (flat_map (column_of tablename) (elems specs)).
Qed.

Lemma elems_appended {A} (l : list A) : elems (appended l) = l.
Proof. now destruct l. Qed.

Lemma filter_nil_iff {A} (p : A -> bool) (l : list A) :
  filter p l = [] <-> forall x, In x l -> p x = false.
Proof.
  induction l as [|a l IH]; simpl.
  - split; [intros _ x [] | reflexivity].
  - destruct (p a) eqn:E.
    + split; [discriminate|]. intros H. specialize (H a (or_introl eq_refl)).
      congruence.
    + rewrite IH. split.
      * intros H x [<- | Hx]; auto.
      * intros H x Hx. apply H. now right.
Qed.

(** X1: [TablesFromList] returns the nil slice exactly when no entry of
    the list is free of ['.'] (so also for a non-empty list of column
    specifiers only), and never an empty slice that is not nil. *)
Theorem TablesFromList_nil_iff :
  forall specs : slice string,
    (TablesFromList specs = nil_slice
     <-> forall s, In s (elems specs) -> has_byte dot s = true)
    /\ TablesFromList specs <> mk_slice [].
Proof.
  intros specs. rewrite TablesFromList_appended. split.
  - destruct (filter spec_table_ref (elems specs)) as [|x xs] eqn:E; simpl.
    + split; [|reflexivity]. intros _ s Hs.
      pose proof (proj1 (filter_nil_iff _ _) E s Hs) as H.
      unfold spec_table_ref in H. now destruct (has_byte dot s).
    + split; [discriminate|]. intros H. exfalso.
      assert (Hx : In x (filter spec_table_ref (elems specs)))
        by (rewrite E; now left).
      apply filter_In in Hx as [Hin Hp]. unfold spec_table_ref in Hp.
      rewrite (H x Hin) in Hp. discriminate.
  - destruct (filter spec_table_ref (elems specs)); simpl; discriminate.
Qed.

Lemma TablesFromList_nil_iff_witness :
  TablesFromList (mk_slice ["a.b"; "c.d"]) = nil_slice.
Proof.
  apply (proj1 (TablesFromList_nil_iff (mk_slice ["a.b"; "c.d"]))).
  intros s [<- | [<- | []]]; reflexivity.
Defined.

(** X2: [ColumnsFromList] returns the nil slice exactly when no entry is
    a column reference for the table, and never an empty slice that is
    not nil. *)
Theorem ColumnsFromList_nil_iff :
  forall (specs : slice string) (tablename : string),
    (ColumnsFromList specs tablename = nil_slice
     <-> forall s c, In s (elems specs) -> ~ spec_column_ref tablename s c)
    /\ ColumnsFromList specs tablename <> mk_slice [].
Proof.
  intros specs tablename. rewrite ColumnsFromList_appended. split.
  - destruct (flat_map (column_of tablename) (elems specs)) as [|x xs] eqn:E; simpl.
    + split; [|reflexivity]. intros _ s c Hs Hc.
      apply column_of_ref in Hc.
      assert (Hin : In c (flat_map (column_of tablename) (elems specs))).
      { apply in_flat_map. exists s. split; [exact Hs|]. rewrite Hc. now left. }
      rewrite E in Hin. destruct Hin.
    + split; [discriminate|]. intros H. exfalso.
      assert (Hx : In x (flat_map (column_of tablename) (elems specs)))
        by (rewrite E; now left).
      apply in_flat_map in Hx as (s & Hs & Hx).
      destruct (column_of_cases tablename s) as [[c Ec] | Ec];
        rewrite Ec in Hx; [|destruct Hx].
      apply (H s c Hs). now apply column_of_ref.
  - destruct (flat_map (column_of tablename) (elems specs)); simpl; discriminate.
Qed.

Lemma ColumnsFromList_nil_iff_witness :
  ColumnsFromList (mk_slice ["b"]) "c" = nil_slice.
Proof.
  apply (proj1 (ColumnsFromList_nil_iff (mk_slice ["b"]) "c")).
  intros s c [<- | []] Hc. apply column_of_ref in Hc. discriminate Hc.
Defined.

Lemma filter_idem {A} (p : A -> bool) (l : list A) :
  filter p (filter p l) = filter p l.
Proof.
  induction l as [|a l IH]; simpl; [reflexivity|].
  destruct (p a) eqn:E; simpl; [rewrite E, IH | exact IH]; reflexivity.
Qed.

Lemma column_of_table_ref (tablename i : string) :
  spec_table_ref i = true -> column_of tablename i = [].
Proof.
  unfold spec_table_ref, column_of. intros H.
  apply negb_true_iff in H.
  unfold Split. now rewrite (split_from_no_sep dot i "" H).
Qed.

(** X3: [TablesFromList] is idempotent, and no entry of its result is a
    column reference: [ColumnsFromList] of the result is nil for every
    table name. *)
Theorem TablesFromList_idempotent :
  forall (specs : slice string) (tablename : string),
    TablesFromList (TablesFromList specs) = TablesFromList specs
    /\ ColumnsFromList (TablesFromList specs) tablename = nil_slice.
Proof.
  intros specs tablename. split.
  - rewrite (TablesFromList_appended (TablesFromList specs)).
    rewrite (TablesFromList_appended specs), elems_appended.
    now rewrite filter_idem.
  - rewrite ColumnsFromList_appended, TablesFromList_appended, elems_appended.
    induction (elems specs) as [|i l IH]; simpl; [reflexivity|].
    destruct (spec_table_ref i) eqn:E; simpl; [|exact IH].
    rewrite (column_of_table_ref tablename i E). exact IH.
Qed.

(** X4: both functions treat the entries one by one: on a list that is
    the concatenation of two lists they return the concatenation of the
    two results. *)
Theorem filter_resolver_concatenation :
  forall (a b : list string) (tablename : string),
    elems (TablesFromList (mk_slice (a ++ b)))
    = elems (TablesFromList (mk_slice a)) ++ elems (TablesFromList (mk_slice b))
    /\ elems (ColumnsFromList (mk_slice (a ++ b)) tablename)
       = elems (ColumnsFromList (mk_slice a) tablename)
           ++ elems (ColumnsFromList (mk_slice b) tablename).
Proof.
  intros a b tablename.
  rewrite !TablesFromList_appended, !ColumnsFromList_appended, !elems_appended.
  simpl. now rewrite filter_app, flat_map_app.
Qed.

Lemma column_of_wildcard (tablename i : string) :
  column_of "*" i = [] \/ column_of tablename i = column_of "*" i.
Proof.
  unfold column_of.
  destruct (Split i dot) as [|t [|c [|x r]]]; auto.
  destruct (String.eqb t "*") eqn:E; simpl.
  - right. now rewrite orb_true_r.
  - now left.
Qed.

(** X5: a wildcard entry applies to every table: each column that
    [ColumnsFromList] returns for the name ["*"] is returned for every
    table name, so the result for a table is at least as long. *)
Theorem ColumnsFromList_wildcard_included :
  forall (specs : slice string) (tablename : string),
    incl (elems (ColumnsFromList specs "*"))
         (elems (ColumnsFromList specs tablename))
    /\ len (ColumnsFromList specs "*") <= len (ColumnsFromList specs tablename).
Proof.
  intros specs tablename. unfold len.
  rewrite !ColumnsFromList_appended, !elems_appended. split.
  - intros c Hc. apply in_flat_map in Hc as (i & Hi & Hc).
    apply in_flat_map. exists i. split; [exact Hi|].
    destruct (column_of_wildcard tablename i) as [E | E].
    + rewrite E in Hc. destruct Hc.
    + now rewrite E.
  - induction (elems specs) as [|i l IH]; simpl; [lia|].
    rewrite !length_app.
    destruct (column_of_wildcard tablename i) as [E | E]; rewrite E; simpl; lia.
Qed.

(** X6: no string returned by either function contains a ['.']. *)
Theorem filter_resolver_results_have_no_dot :
  forall (specs : slice string) (tablename x : string),
    (In x (elems (TablesFromList specs)) -> has_byte dot x = false)
    /\ (In x (elems (ColumnsFromList specs tablename)) -> has_byte dot x = false).
Proof.
  intros specs tablename x.
  rewrite TablesFromList_appended, ColumnsFromList_appended, !elems_appended.
  split.
  - intros H. apply filter_In in H as [_ H]. unfold spec_table_ref in H.
    now apply negb_true_iff in H.
  - intros H. apply in_flat_map in H as (i & _ & H).
    destruct (column_of_cases tablename i) as [[c E] | E];
      rewrite E in H; [|destruct H].
    destruct H as [<- | []].
    apply column_of_ref in E. destruct E as (t & _ & _ & Hc & _). exact Hc.
Qed.

Lemma filter_resolver_results_have_no_dot_witness :
  has_byte dot "b" = false /\ has_byte dot "d" = false.
Proof.
  split.
  - apply (proj1 (filter_resolver_results_have_no_dot
                    (mk_slice ["a.b"; "b"; "c.d"]) "c" "b")).
    simpl. auto.
  - apply (proj2 (filter_resolver_results_have_no_dot
                    (mk_slice ["a.b"; "b"; "c.d"]) "c" "d")).
    simpl. auto.
Defined.

(** X7: [strings.Split] on ['.'] gives one segment more than there are
    ['.'] in the entry, so an entry with two or more ['.'] is dropped by
    both functions wherever it stands in the list. *)
Theorem filter_resolver_drops_malformed :
  forall (a b : list string) (s tablename : string),
    2 <= count_byte dot s ->
    length (Split s dot) = S (count_byte dot s)
    /\ TablesFromList (mk_slice (a ++ s :: b)) = TablesFromList (mk_slice (a ++ b))
    /\ ColumnsFromList (mk_slice (a ++ s :: b)) tablename
       = ColumnsFromList (mk_slice (a ++ b)) tablename.
Proof.
  intros a b s tablename H.
  pose proof (split_from_length dot s "") as Hl. fold (Split s dot) in Hl.
  split; [exact Hl|].
  rewrite !TablesFromList_appended, !ColumnsFromList_appended. simpl.
  rewrite !filter_app, !flat_map_app. simpl.
  assert (Ht : spec_table_ref s = false).
  { unfold spec_table_ref. destruct (has_byte dot s) eqn:E; [reflexivity|].
    apply has_byte_count in E. lia. }
  assert (Hc : column_of tablename s = []).
  { unfold column_of. destruct (Split s dot) as [|t [|c [|x r]]]; try reflexivity.
    simpl in Hl. lia. }
  now rewrite Ht, Hc.
Qed.

Lemma filter_resolver_drops_malformed_witness :
  TablesFromList (mk_slice (["b"] ++ "a.b.c" :: ["c.d"]))
  = TablesFromList (mk_slice (["b"] ++ ["c.d"])).
Proof.
  apply (proj1 (proj2 (filter_resolver_drops_malformed
                         ["b"] ["c.d"] "a.b.c" "c" ltac:(simpl; lia)))).
Defined.

End FilterResolverMore.

(** ** Defaults *)

Section DefaultsMore.

Import drivers.

(** X8: [DefaultInt] gives zero only when both the value and the
    default are zero, so with a default that is not zero the result is
    never zero; and taking the default of a result changes nothing. *)
Theorem DefaultInt_zero_iff :
  forall value def : Z,
    (DefaultInt value def = 0%Z <-> value = 0%Z /\ def = 0%Z)
    /\ (def <> 0%Z -> DefaultInt value def <> 0%Z)
    /\ DefaultInt (DefaultInt value def) def = DefaultInt value def.
Proof.
  intros value def. unfold DefaultInt.
  destruct (Z.eqb_spec value 0) as [-> | Hv].
  - split; [tauto|]. split; [tauto|].
    destruct (Z.eqb_spec def 0); [congruence | reflexivity].
  - split; [tauto|]. split; [tauto|].
    destruct (Z.eqb_spec value 0); [contradiction | reflexivity].
Qed.

Lemma DefaultInt_zero_iff_witness : DefaultInt 0 10 <> 0%Z.
Proof.
  apply (proj1 (proj2 (DefaultInt_zero_iff 0 10))). discriminate.
Defined.

Lemma length_0_empty (s : string) : Nat.eqb (String.length s) 0 = true <-> s = "".
Proof. destruct s; simpl; split; congruence. Qed.

(** X9: [DefaultEnv] gives the variable's value when it is not empty
    and the default otherwise, a variable set to the empty string
    counting as unset; the result is empty only when both are. *)
Theorem DefaultEnv_empty_iff :
  forall (getenv : string -> string) (key def : string),
    (getenv key <> "" -> DefaultEnv getenv key def = getenv key)
    /\ (getenv key = "" -> DefaultEnv getenv key def = def)
    /\ (DefaultEnv getenv key def = "" <-> getenv key = "" /\ def = "")
    /\ (def <> "" -> DefaultEnv getenv key def <> "").
Proof.
  intros getenv key def. unfold DefaultEnv.
  destruct (Nat.eqb (String.length (getenv key)) 0) eqn:E.
  - apply length_0_empty in E. rewrite E. repeat split; try tauto; congruence.
  - assert (H : getenv key <> "").
    { intros H. apply length_0_empty in H. congruence. }
    repeat split; try tauto; congruence.
Qed.

Lemma DefaultEnv_empty_iff_witness :
  DefaultEnv Fixtures.env "DB_HOST" "localhost" = "db.local"
  /\ DefaultEnv Fixtures.env "DB_PORT" "5432" = "5432".
Proof.
  split.
  - apply (proj1 (DefaultEnv_empty_iff Fixtures.env "DB_HOST" "localhost")).
    discriminate.
  - apply (proj1 (proj2 (DefaultEnv_empty_iff Fixtures.env "DB_PORT" "5432"))).
    reflexivity.
Defined.

End DefaultsMore.

(** ** Validation *)

Section ValidationMore.

Import errors bdb sqlboiler ValidationSpec.

Lemma missing_names_app (a b : list Table) :
  missing_names (a ++ b) = missing_names a ++ missing_names b.
Proof. unfold missing_names. now rewrite filter_app, map_app. Qed.

Lemma missing_names_filter (l : list Table) :
  missing_names (filter lacks_pkey l) = missing_names l.
Proof. unfold missing_names. now rewrite filter_idem. Qed.

Lemma missing_names_flag (l : list Table) :
  missing_names (map (fun t => {| Name := Name t; PKey := PKey t;
                                  IsJoinTable := negb (IsJoinTable t) |}) l)
  = missing_names l.
Proof.
  unfold missing_names.
  set (f := fun t => {| Name := Name t; PKey := PKey t;
                        IsJoinTable := negb (IsJoinTable t) |}).
  induction l as [|t l IH]; [reflexivity|].
  cbn [map filter].
  assert (E : lacks_pkey (f t) = lacks_pkey t) by reflexivity.
  rewrite E. destruct (lacks_pkey t); cbn [map]; [|exact IH].
  f_equal. exact IH.
Qed.

(** X10: the verdict of [checkPKeys] rests on the tables without a
    primary key alone: tables that have one, and the join-table flag,
    change nothing, and two lists pass together exactly when each
    passes. *)
Theorem checkPKeys_only_missing_matter :
  forall a b : list Table,
    checkPKeys (mk_slice a) = checkPKeys (mk_slice (filter lacks_pkey a))
    /\ checkPKeys (mk_slice a)
       = checkPKeys (mk_slice (map (fun t => {| Name := Name t; PKey := PKey t;
                                                IsJoinTable := negb (IsJoinTable t) |}) a))
    /\ (checkPKeys (mk_slice (a ++ b)) = None
        <-> checkPKeys (mk_slice a) = None /\ checkPKeys (mk_slice b) = None).
Proof.
  intros a b. rewrite !checkPKeys_eq. cbn [elems]. split; [|split].
  - now rewrite missing_names_filter.
  - now rewrite missing_names_flag.
  - rewrite missing_names_app.
    destruct (missing_names a), (missing_names b); cbn [app];
      split; try tauto; try discriminate; intros [? ?]; discriminate.
Qed.

End ValidationMore.

(** ** The stages of the construction *)

Section StagesMore.

Import errors bdb sqlboiler OrchestratorSpec.

Lemma initDriver_postgres (s : State) :
  initDriver "postgres" s
  = ([], Ret None
             (withDriver
                (Some (PostgresDriver
                         (User (Postgres (Config_ s))) (Pass (Postgres (Config_ s)))
                         (DBName (Postgres (Config_ s))) (Host (Postgres (Config_ s)))
                         (Port (Postgres (Config_ s))) (SSLMode (Postgres (Config_ s)))))
                s)).
Proof. reflexivity. Qed.

Lemma initDriver_mock (s : State) :
  initDriver "mock" s = ([], Ret None (withDriver (Some MockDriver) s)).
Proof. reflexivity. Qed.

Lemma initDriver_other (driverName : string) (s : State) :
  driverName <> "postgres" ->
  driverName <> "mock" ->
  initDriver driverName s
  = ([], Ret (match Driver s with
              | None => Some invalidDriver
              | Some _ => None
              end) s).
Proof.
  intros Hp Hm. apply String.eqb_neq in Hp, Hm.
  unfold initDriver. rewrite Hp, Hm.
  unfold bind, ret, get. simpl. now destruct (Driver s).
Qed.

(** X11: [initDriver] returns its error exactly when the name is
    neither "postgres" nor "mock" and the state holds no driver, and then
    the state is left without one; it never calls the driver.  "postgres"
    builds the driver from the user, password, database name, host, port
    and SSL mode of the configuration, and a known name replaces whatever
    driver the state held; an unknown name on a state that holds a driver
    returns nil and keeps that driver. *)
Theorem initDriver_error_iff :
  forall (driverName : string) (s : State),
    (value (initDriver driverName s) = Some (Some invalidDriver)
     <-> driverName <> "postgres" /\ driverName <> "mock" /\ Driver s = None)
    /\ (exists e s', initDriver driverName s = ([], Ret e s')
                     /\ (e = None \/ e = Some invalidDriver)
                     /\ (e = None <-> Driver s' <> None))
    /\ (driverName = "postgres" ->
        final (initDriver driverName s)
        = Some (withDriver
                  (Some (PostgresDriver
                           (User (Postgres (Config_ s))) (Pass (Postgres (Config_ s)))
                           (DBName (Postgres (Config_ s))) (Host (Postgres (Config_ s)))
                           (Port (Postgres (Config_ s))) (SSLMode (Postgres (Config_ s)))))
                  s))
    /\ (driverName = "mock" ->
        final (initDriver driverName s) = Some (withDriver (Some MockDriver) s))
    /\ (forall d : Interface,
           driverName <> "postgres" -> driverName <> "mock" ->
           Driver s = Some d ->
           initDriver driverName s = ([], Ret None s)).
Proof.
  intros driverName s.
  destruct (string_dec driverName "postgres") as [-> | Hp].
  { rewrite initDriver_postgres. unfold value, final. simpl.
    split; [|split; [|split; [|split]]].
    - split; [discriminate | tauto].
    - eexists _, _. split; [reflexivity|]. split; [now left|].
      simpl. split; [discriminate | reflexivity].
    - reflexivity.
    - discriminate.
    - intros d Hn. contradiction. }
  destruct (string_dec driverName "mock") as [-> | Hm].
  { rewrite initDriver_mock. unfold value, final. simpl.
    split; [|split; [|split; [|split]]].
    - split; [discriminate | tauto].
    - eexists _, _. split; [reflexivity|]. split; [now left|].
      simpl. split; [discriminate | reflexivity].
    - discriminate.
    - reflexivity.
    - intros d _ Hn. contradiction. }
  rewrite (initDriver_other driverName s Hp Hm). unfold value, final. simpl.
  split; [|split; [|split; [|split]]].
  - destruct (Driver s); split; try discriminate; try tauto.
    intros (_ & _ & H). discriminate.
  - eexists _, _. split; [reflexivity|].
    destruct (Driver s); simpl.
    + split; [now left|]. split; [discriminate | reflexivity].
    + split; [now right|]. split; [discriminate | congruence].
  - intros ->. contradiction.
  - intros ->. contradiction.
  - intros d _ _ Hd. now rewrite Hd.
Qed.

Lemma initDriver_error_iff_witness :
  initDriver "sqlite" Fixtures.readyState = ([], Ret None Fixtures.readyState).
Proof.
  apply (proj2 (proj2 (proj2 (proj2
                   (initDriver_error_iff "sqlite" Fixtures.readyState))))
                 MockDriver); [discriminate | discriminate | reflexivity].
Defined.

(** X12: on a state with a driver [initTables] calls [bdb.Tables] once
    and stores the tables it returned in the state whether or not it then
    fails, leaving the driver and the configuration alone; an error of
    [bdb.Tables] is returned wrapped even when no table came back; and it
    returns nil exactly when [bdb.Tables] gave no error and at least one
    table, all with a primary key. *)
Theorem initTables_outcome :
  forall (w : World) (exclude : slice string) (s : State) (d : Interface),
    Driver s = Some d ->
    let r := bdb_Tables w d (elems exclude) in
    trace (initTables w exclude s) = [EvTables d (elems exclude)]
    /\ final (initTables w exclude s) = Some (withTables (fst r) s)
    /\ (forall err, snd r = Some err ->
                    value (initTables w exclude s)
                    = Some (Some (Wrap err "unable to fetch table data")))
    /\ (value (initTables w exclude s) = Some None
        <-> snd r = None /\ len (fst r) <> 0
            /\ forall t, In t (elems (fst r)) -> PKey t <> None).
Proof.
  intros w exclude s d Hd r.
  rewrite (initTables_eq w exclude s d Hd). fold r.
  unfold trace, final, value, tablesError. simpl.
  split; [reflexivity|]. split; [reflexivity|]. split.
  - intros err ->. reflexivity.
  - destruct (snd r) as [err|].
    { split; [discriminate|]. intros (H & _). discriminate. }
    destruct (Nat.eqb (len (fst r)) 0) eqn:E.
    { apply Nat.eqb_eq in E. split; [discriminate|].
      intros (_ & H & _). contradiction. }
    apply Nat.eqb_neq in E.
    rewrite checkPKeys_eq, <- missing_names_nil.
    destruct (ValidationSpec.missing_names (elems (fst r))).
    + split; auto.
    + split; [discriminate|]. intros (_ & _ & H). discriminate.
Qed.

Lemma initTables_outcome_witness :
  final (initTables Fixtures.emptySchemaWorld nil_slice Fixtures.readyState)
  = Some (withTables nil_slice Fixtures.readyState).
Proof.
  apply (proj1 (proj2 (initTables_outcome
                         Fixtures.emptySchemaWorld nil_slice
                         Fixtures.readyState MockDriver eq_refl))).
Defined.

(** X13: [getBasePath] never touches the state; with a configured base
    directory it calls nothing and cannot fail; and any error it returns
    is the error of [os.Getwd], reached only with no configured directory
    and no usable package directory. *)
Theorem getBasePath_error_source :
  forall (w : World) (baseDirConfig : string) (s : State),
    final (getBasePath w baseDirConfig s) = Some s
    /\ (baseDirConfig <> "" -> trace (getBasePath w baseDirConfig s) = [])
    /\ (forall path err,
           value (getBasePath w baseDirConfig s) = Some (path, Some err) ->
           baseDirConfig = ""
           /\ os_Getwd w = (path, Some err)
           /\ (forall p, build_Import w basePackage = Some p -> Dir p = "")
           /\ trace (getBasePath w baseDirConfig s) = [EvImport basePackage; EvGetwd]).
Proof.
  intros w baseDirConfig s. unfold getBasePath, final, value, trace.
  destruct (Nat.ltb 0 (String.length baseDirConfig)) eqn:Hb.
  { simpl. split; [reflexivity|]. split; [reflexivity|].
    intros path err H. discriminate. }
  apply empty_length in Hb. subst baseDirConfig.
  unfold bind, emit, ret. simpl.
  destruct (build_Import w basePackage) as [p|].
  - destruct (Nat.ltb 0 (String.length (Dir p))) eqn:Hp; simpl.
    + split; [reflexivity|]. split; [congruence|].
      intros path err H. discriminate.
    + apply empty_length in Hp.
      split; [reflexivity|]. split; [congruence|].
      intros path err H. injection H as H.
      repeat split; auto. intros q Hq. congruence.
  - simpl. split; [reflexivity|]. split; [congruence|].
    intros path err H. injection H as H.
    repeat split; auto. intros q Hq. discriminate.
Qed.

Lemma getBasePath_error_source_witness :
  trace (getBasePath Fixtures.gopathWorld "/opt/boil" Fixtures.readyState) = [].
Proof.
  apply (proj1 (proj2 (getBasePath_error_source
                         Fixtures.gopathWorld "/opt/boil" Fixtures.readyState))).
  discriminate.
Defined.

End StagesMore.

Section TemplatesMore.

Import errors bdb sqlboiler OrchestratorSpec.

(** Rewriting with what the loader returned. *)
Ltac use_loads :=
  cbn [firstn nth template_loads Nat.sub load_error];
  repeat match goal with
         | H : _ = (_, _) |- _ => rewrite H
         end;
  cbn [fst snd].

(** The loads made so far all succeeded and the one just made decides. *)
Ltac loads_upto n loads :=
  match goal with
  | |- exists l e, _ =>
      exists (firstn (n - 1) loads), (nth (n - 1) loads EvGetwd);
      split; [reflexivity|];
      split; [exists n; reflexivity|];
      split; [cbn [firstn template_loads Nat.sub];
              repeat (apply Forall_cons; [use_loads; reflexivity|]);
              apply Forall_nil|];
      split; [use_loads; reflexivity|]
  end.

(** X14: once the base path is known, [initTemplates] loads the five
    template locations in the order templates, singleton, test, singleton
    test, test main, stops at the first load that fails and returns that
    load's error as it is; it returns nil only after all five loads, and
    then the five fields of the state hold what the loader returned.  An
    error of the base path is returned before anything is loaded. *)
Theorem initTemplates_stops_at_first_failure :
  forall (w : World) (s : State) (lb : list Event) (bp : string),
    (forall err,
        getBasePath w (BaseDir (Config_ s)) s = (lb, Ret (bp, Some err) s) ->
        initTemplates w s = (lb, Ret (Some err) s))
    /\ (getBasePath w (BaseDir (Config_ s)) s = (lb, Ret (bp, None) s) ->
        let loads := template_loads w bp (DriverName (Config_ s)) in
        exists l e,
          trace (initTemplates w s) = lb ++ l ++ [e]
          /\ (exists n, l ++ [e] = firstn n loads)
          /\ Forall (fun x => load_error w x = None) l
          /\ value (initTemplates w s) = Some (load_error w e)
          /\ (load_error w e = None ->
              l ++ [e] = loads
              /\ exists s',
                  final (initTemplates w s) = Some s'
                  /\ Templates s'
                     = fst (loadTemplates w (filepath_Join w bp templatesDirectory))
                  /\ SingletonTemplates s'
                     = fst (loadTemplates w (filepath_Join w bp templatesSingletonDirectory))
                  /\ TestTemplates s'
                     = fst (loadTemplates w (filepath_Join w bp templatesTestDirectory))
                  /\ SingletonTestTemplates s'
                     = fst (loadTemplates w (filepath_Join w bp templatesSingletonTestDirectory))
                  /\ TestMainTemplate s'
                     = fst (loadTemplate w (filepath_Join w bp templatesTestMainDirectory)
                                         (DriverName (Config_ s) ++ "_main.tpl")))).
Proof.
  intros w s lb bp. split.
  - intros err H. unfold initTemplates.
    unfold bind at 1. unfold get at 1. cbv iota beta.
    unfold bind at 1. rewrite H. cbv iota beta. simpl.
    now rewrite app_nil_r.
  - intros H loads.
    remember (initTemplates w s) as res eqn:E.
    unfold initTemplates in E.
    unfold bind at 1 in E. unfold get at 1 in E. cbv iota beta in E.
    unfold bind at 1 in E. rewrite H in E. cbv iota beta in E.
    cbn [fst snd] in E.
    unfold call_loadTemplates, call_loadTemplate, set_Templates,
      set_SingletonTemplates, set_TestTemplates, set_SingletonTestTemplates,
      set_TestMainTemplate, bind, get, put, emit, ret in E.
    subst loads. cbn [fst snd app] in E.
    destruct (loadTemplates w (filepath_Join w bp templatesDirectory))
      as [t1 [e1|]] eqn:E1; cbn [fst snd app] in E.
    { subst res. unfold trace, value, final. cbn [fst snd].
      loads_upto 1 (template_loads w bp (DriverName (Config_ s))).
      use_loads. discriminate. }
    destruct (loadTemplates w (filepath_Join w bp templatesSingletonDirectory))
      as [t2 [e2|]] eqn:E2; cbn [fst snd app] in E.
    { subst res. unfold trace, value, final. cbn [fst snd].
      loads_upto 2 (template_loads w bp (DriverName (Config_ s))).
      use_loads. discriminate. }
    destruct (loadTemplates w (filepath_Join w bp templatesTestDirectory))
      as [t3 [e3|]] eqn:E3; cbn [fst snd app] in E.
    { subst res. unfold trace, value, final. cbn [fst snd].
      loads_upto 3 (template_loads w bp (DriverName (Config_ s))).
      use_loads. discriminate. }
    destruct (loadTemplates w (filepath_Join w bp templatesSingletonTestDirectory))
      as [t4 [e4|]] eqn:E4; cbn [fst snd app] in E.
    { subst res. unfold trace, value, final. cbn [fst snd].
      loads_upto 4 (template_loads w bp (DriverName (Config_ s))).
      use_loads. discriminate. }
    cbn [withTemplates withSingletonTemplates withTestTemplates
           withSingletonTestTemplates Config_] in E.
    destruct (loadTemplate w (filepath_Join w bp templatesTestMainDirectory)
                           (DriverName (Config_ s) ++ "_main.tpl"))
      as [t5 [e5|]] eqn:E5; cbn [fst snd app] in E.
    { subst res. unfold trace, value, final. cbn [fst snd].
      loads_upto 5 (template_loads w bp (DriverName (Config_ s))).
      use_loads. discriminate. }
    subst res. unfold trace, value, final. cbn [fst snd].
    loads_upto 5 (template_loads w bp (DriverName (Config_ s))).
    intros _. split; [reflexivity|].
    eexists. split; [reflexivity|].
    repeat split; reflexivity.
Qed.

Lemma initTemplates_stops_at_first_failure_witness :
  exists l e,
    trace (initTemplates Fixtures.okWorld Fixtures.readyState)
    = [EvImport basePackage; EvGetwd] ++ l ++ [e]
    /\ value (initTemplates Fixtures.okWorld Fixtures.readyState)
       = Some (load_error Fixtures.okWorld e).
Proof.
  destruct (proj2 (initTemplates_stops_at_first_failure
                     Fixtures.okWorld Fixtures.readyState
                     [EvImport basePackage; EvGetwd] "/work") eq_refl)
    as (l & e & Ht & _ & _ & Hv & _).
  exists l, e. split; assumption.
Defined.

End TemplatesMore.

(** ** [New] as a whole *)

Section NewMore.

Import errors bdb sqlboiler OrchestratorSpec.

(** [New], stage by stage. *)
Lemma New_cases (w : World) (config : Config) :
  sqlboiler.New w config
  = match selectDriver config with
    | None => ([], Ret (None, Some invalidDriver) (newState config))
    | Some d =>
        let s1 := withDriver (Some d) (newState config) in
        match driver_Open w d with
        | Some err =>
            ([EvOpen d],
             Ret (None, Some (Wrap err "unable to connect to the database")) s1)
        | None =>
            let exclude := elems (ExcludeTables config) in
            let r := bdb_Tables w d exclude in
            let s2 := withTables (fst r) s1 in
            match tablesError r with
            | Some err =>
                ([EvOpen d; EvTables d exclude],
                 Ret (None, Some (Wrap err "unable to initialize tables")) s2)
            | None =>
                match os_MkdirAll w (OutFolder config) with
                | Some err =>
                    ([EvOpen d; EvTables d exclude; EvMkdirAll (OutFolder config)],
                     Ret (None, Some (Wrap err "unable to initialize the output folder")) s2)
                | None =>
                    ([EvOpen d; EvTables d exclude; EvMkdirAll (OutFolder config)]
                       ++ fst (initTemplates w s2),
                     match snd (initTemplates w s2) with
                     | Ret (Some err) s3 =>
                         Ret (None, Some (Wrap err "unable to initialize templates")) s3
                     | Ret None s3 => Ret (Some s3, None) s3
                     | Panic => Panic
                     end)
                end
            end
        end
    end.
Proof.
  unfold sqlboiler.New.
  pose proof (initDriver_newState config) as H1.
  destruct (selectDriver config) as [d|] eqn:Hd.
  2:{ now rewrite (stage_err _ _ _ _ _ _ _ H1). }
  rewrite (stage_ok _ _ _ _ _ _ H1). cbn [app].
  cbv zeta.
  set (s1 := withDriver (Some d) (newState config)).
  assert (Hs1 : Driver s1 = Some d) by reflexivity.
  pose proof (Driver_Open_eq w s1 d Hs1) as H2.
  destruct (driver_Open w d) as [err|].
  { now rewrite (stage_err _ _ _ _ _ _ _ H2). }
  rewrite (stage_ok _ _ _ _ _ _ H2). cbn [fst snd].
  pose proof (initTables_eq w (ExcludeTables config) s1 d Hs1) as H3.
  set (r := bdb_Tables w d (elems (ExcludeTables config))) in *.
  set (s2 := withTables (fst r) s1) in *.
  destruct (tablesError r) as [err|].
  { now rewrite (stage_err _ _ _ _ _ _ _ H3). }
  rewrite (stage_ok _ _ _ _ _ _ H3). cbn [fst snd].
  pose proof (initOutFolder_eq w s2) as H4.
  change (OutFolder (Config_ s2)) with (OutFolder config) in H4.
  destruct (os_MkdirAll w (OutFolder config)) as [err|].
  { now rewrite (stage_err _ _ _ _ _ _ _ H4). }
  rewrite (stage_ok _ _ _ _ _ _ H4). cbn [fst snd].
  destruct (initTemplates w s2) as [l5 [[err|] s5|]] eqn:H5.
  - now rewrite (stage_err _ _ _ _ _ _ _ H5).
  - rewrite (stage_ok _ _ _ _ _ _ H5). unfold bind, get, ret. cbn [fst snd].
    now rewrite app_nil_r.
  - unfold stage, bind. now rewrite H5.
Qed.



(** X16: a state that [New] returns is the struct it worked on: it
    carries the configuration given, the driver selected for the
    configured name, and exactly the tables [bdb.Tables] returned, each
    with a primary key; and [New] has then called [Open], [bdb.Tables] and
    [MkdirAll] on the configured output folder, once each and in that
    order, before loading the templates. *)
Theorem New_success_state :
  forall (w : World) (config : Config) (s : State) (e : option error),
    value (sqlboiler.New w config) = Some (Some s, e) ->
    exists d,
      e = None
      /\ final (sqlboiler.New w config) = Some s
      /\ selectDriver config = Some d
      /\ Driver s = Some d
      /\ Config_ s = config
      /\ Tables s = fst (bdb_Tables w d (elems (ExcludeTables config)))
      /\ (forall t, In t (elems (Tables s)) -> PKey t <> None)
      /\ exists l,
          trace (sqlboiler.New w config)
          = [EvOpen d; EvTables d (elems (ExcludeTables config));
             EvMkdirAll (OutFolder config)] ++ l
          /\ forallb (fun ev => match ev with
                                | EvImport _ | EvGetwd
                                | EvLoadTemplates _ | EvLoadTemplate _ _ => true
                                | _ => false
                                end) l = true.
Proof.
  intros w config s e H. rewrite New_cases in *.
  unfold value, final, trace in *.
  destruct (selectDriver config) as [d|]; [|discriminate].
  cbv zeta in *.
  destruct (driver_Open w d) as [e1|]; [discriminate|].
  destruct (tablesError _) as [e2|] eqn:Ht; [discriminate|].
  destruct (os_MkdirAll w (OutFolder config)) as [e3|]; [discriminate|].
  cbn [fst snd] in *.
  set (s2 := withTables (fst (bdb_Tables w d (elems (ExcludeTables config))))
                        (withDriver (Some d) (newState config))) in *.
  destruct (initTemplates_inv w s2) as (l5 & e5 & s5 & H5 & HD & HT & HC & _).
  assert (Hl : forallb (fun ev => match ev with
                                  | EvImport _ | EvGetwd
                                  | EvLoadTemplates _ | EvLoadTemplate _ _ => true
                                  | _ => false
                                  end) (fst (initTemplates w s2)) = true).
  { clear. unfold initTemplates, getBasePath, call_loadTemplates,
      call_loadTemplate, set_Templates, set_SingletonTemplates,
      set_TestTemplates, set_SingletonTestTemplates, set_TestMainTemplate,
      bind, get, put, emit, ret.
    destruct (Nat.ltb 0 (String.length (BaseDir (Config_ s2)))); simpl;
      [|destruct (build_Import w basePackage) as [p|];
        [destruct (Nat.ltb 0 (String.length (Dir p)))|]; simpl;
        try destruct (os_Getwd w) as [wd [eg|]]; simpl; try reflexivity];
      repeat match goal with
             | |- context [loadTemplates w ?d] =>
                 destruct (loadTemplates w d) as [? [?|]]; simpl
             | |- context [loadTemplate w ?d ?n] =>
                 destruct (loadTemplate w d n) as [? [?|]]; simpl
             end; reflexivity. }
  rewrite H5 in *. cbn [fst snd] in *.
  destruct e5 as [e4|]; [discriminate|].
  injection H as -> <-.
  exists d. split; [reflexivity|]. split; [reflexivity|]. split; [reflexivity|].
  split; [now rewrite HD|]. split; [now rewrite HC|]. split; [now rewrite HT|].
  split.
  - rewrite HT. unfold tablesError in Ht. subst s2. cbn [Tables withTables].
    destruct (snd (bdb_Tables w d (elems (ExcludeTables config)))); [discriminate|].
    destruct (Nat.eqb _ 0); [discriminate|].
    rewrite checkPKeys_eq in Ht. apply missing_names_nil.
    now destruct (ValidationSpec.missing_names _).
  - exists l5. split; [reflexivity | exact Hl].
Qed.

Lemma New_success_state_witness :
  exists d,
    selectDriver Fixtures.mockConfig = Some d
    /\ Driver Fixtures.builtState = Some d
    /\ Config_ Fixtures.builtState = Fixtures.mockConfig.
Proof.
  destruct (New_success_state Fixtures.okWorld Fixtures.mockConfig
                              Fixtures.builtState None eq_refl)
    as (d & _ & _ & Hs & Hd & Hc & _).
  exists d. repeat split; assumption.
Defined.

(** X17: the first stage that fails ends [New].  When [Open] fails
    nothing is introspected, created or loaded; when [MkdirAll] fails the
    tables have been fetched and stored but no template is loaded.  In
    both cases the cause comes back under the message of its stage. *)
Theorem New_stops_at_first_failure :
  forall (w : World) (config : Config) (d : Interface) (err : error),
    selectDriver config = Some d ->
    (driver_Open w d = Some err ->
     sqlboiler.New w config
     = ([EvOpen d],
        Ret (None, Some (Wrap err "unable to connect to the database"))
            (withDriver (Some d) (newState config))))
    /\ (driver_Open w d = None ->
        tablesError (bdb_Tables w d (elems (ExcludeTables config))) = None ->
        os_MkdirAll w (OutFolder config) = Some err ->
        sqlboiler.New w config
        = ([EvOpen d; EvTables d (elems (ExcludeTables config));
            EvMkdirAll (OutFolder config)],
           Ret (None, Some (Wrap err "unable to initialize the output folder"))
               (withTables (fst (bdb_Tables w d (elems (ExcludeTables config))))
                           (withDriver (Some d) (newState config))))).
Proof.
  intros w config d err Hd. rewrite New_cases, Hd. cbv zeta. split.
  - intros ->. reflexivity.
  - intros -> -> ->. reflexivity.
Qed.

Lemma New_stops_at_first_failure_witness :
  sqlboiler.New Fixtures.mkdirFailsWorld Fixtures.mockConfig
  = ([EvOpen MockDriver; EvTables MockDriver []; EvMkdirAll "models"],
     Ret (None, Some (Wrap (errors.New "permission denied")
                           "unable to initialize the output folder"))
         Fixtures.readyState).
Proof.
  apply (proj2 (New_stops_at_first_failure
                  Fixtures.mkdirFailsWorld Fixtures.mockConfig MockDriver
                  (errors.New "permission denied") eq_refl));
    reflexivity.
Defined.

(** X18: when the introspection succeeds with at least one table and
    some table has no primary key, [New] fails before creating the output
    folder, and the message of its error is "unable to initialize tables:
    primary key missing in tables (...)" with the names of those tables,
    joined by ", " in the order of the table list. *)
Theorem New_reports_missing_keys :
  forall (w : World) (config : Config) (d : Interface),
    selectDriver config = Some d ->
    driver_Open w d = None ->
    let r := bdb_Tables w d (elems (ExcludeTables config)) in
    snd r = None ->
    ValidationSpec.missing_names (elems (fst r)) <> [] ->
    exists e,
      value (sqlboiler.New w config) = Some (None, Some e)
      /\ Error e
         = ("unable to initialize tables: primary key missing in tables ("
              ++ Join (ValidationSpec.missing_names (elems (fst r))) ", " ++ ")")%string
      /\ trace (sqlboiler.New w config)
         = [EvOpen d; EvTables d (elems (ExcludeTables config))].
Proof.
  intros w config d Hd Ho r Hr Hm. rewrite New_cases, Hd, Ho. cbv zeta. fold r.
  assert (Ht : tablesError r
               = Some (errors.New
                         ("primary key missing in tables ("
                            ++ Join (ValidationSpec.missing_names (elems (fst r))) ", "
                            ++ ")"))).
  { unfold tablesError. rewrite Hr.
    destruct (Nat.eqb (len (fst r)) 0) eqn:E.
    - apply Nat.eqb_eq, len_0_elems in E. rewrite E in Hm. now contradiction Hm.
    - rewrite checkPKeys_eq.
      now destruct (ValidationSpec.missing_names (elems (fst r))). }
  rewrite Ht. eexists. split; [reflexivity|]. split; reflexivity.
Qed.

Lemma New_reports_missing_keys_witness :
  exists e,
    value (sqlboiler.New Fixtures.missingKeyWorld Fixtures.mockConfig)
    = Some (None, Some e)
    /\ Error e
       = "unable to initialize tables: primary key missing in tables (T1, T3)".
Proof.
  destruct (New_reports_missing_keys
              Fixtures.missingKeyWorld Fixtures.mockConfig MockDriver
              eq_refl eq_refl eq_refl ltac:(discriminate))
    as (e & Hv & He & _).
  exists e. split; [exact Hv | exact He].
Defined.

End NewMore.

(** ** [Run] and [Cleanup] on their own and after [New] *)

Section RunMore.

Import errors bdb sqlboiler RunSpec OrchestratorSpec.

Lemma finished_prefix (w : World) (s : State) (l : list Event)
      (r : list Event * result (option error)) :
  Forall (call_succeeded w s) l ->
  finished w s r ->
  finished w s (l ++ fst r, snd r).
Proof.
  unfold finished. intros Hl. cbn [fst snd].
  destruct (snd r) as [[e|] s'|]; [| |tauto].
  - intros (-> & l0 & g & data & cause & Hf & H0 & Hg & He).
    split; [reflexivity|]. exists (l ++ l0), g, data, cause.
    rewrite Hf, app_assoc. repeat split; auto. now apply Forall_app.
  - intros (-> & H). split; [reflexivity|]. now apply Forall_app.
Qed.

Lemma finished_failure (w : World) (s : State) (l : list Event)
      (g : Generator) (data : templateData) (cause : error) :
  Forall (call_succeeded w s) l ->
  generate w g s data = Some cause ->
  finished w s (l ++ [EvGenerate g data],
                Ret (Some (Wrap cause (run_message g))) s).
Proof.
  intros Hl Hg. unfold finished. cbn [fst snd]. split; [reflexivity|].
  now exists l, g, data, cause.
Qed.

Lemma runTables_finished (w : World) (includeTests : bool) (tables : list Table)
      (s : State) (d : Interface) :
  Driver s = Some d ->
  finished w s (runTables w includeTests tables s).
Proof.
  intros Hd. induction tables as [|table rest IH].
  { unfold finished. simpl. split; [reflexivity | constructor]. }
  destruct (IsJoinTable table) eqn:Hj.
  { cbn [runTables]. rewrite Hj. exact IH. }
  rewrite (runTables_cons w includeTests table rest s d Hj Hd).
  set (data := tableData s table (driver_UseLastInsertID w d)).
  assert (Hu : call_succeeded w s (EvUseLastInsertID d)) by exact I.
  destruct (generate w Output s data) as [err|] eqn:Ho.
  { apply (finished_failure w s [EvUseLastInsertID d] Output data err);
      [each_call | exact Ho]. }
  assert (Hc : call_succeeded w s (EvGenerate Output data)) by exact Ho.
  destruct includeTests.
  - destruct (generate w TestOutput s data) as [err|] eqn:Ht.
    { apply (finished_failure w s [EvUseLastInsertID d; EvGenerate Output data]
                              TestOutput data err); [each_call | exact Ht]. }
    assert (Hc' : call_succeeded w s (EvGenerate TestOutput data)) by exact Ht.
    apply (finished_prefix w s
             [EvUseLastInsertID d; EvGenerate Output data; EvGenerate TestOutput data]);
      [each_call | exact IH].
  - apply (finished_prefix w s [EvUseLastInsertID d; EvGenerate Output data]);
      [each_call | exact IH].
Qed.

Lemma Run_finished (w : World) (includeTests : bool) (s : State) (d : Interface) :
  Driver s = Some d ->
  finished w s (Run w includeTests s).
Proof.
  intros Hd.
  pose proof (runTables_finished w includeTests (elems (Tables s)) s d Hd) as HL.
  unfold Run.
  unfold bind at 1. unfold get at 1. cbv iota beta.
  unfold bind at 1.
  rewrite (Driver_UseLastInsertID_eq w s d Hd). cbv iota beta.
  set (sd := tableData s zeroTable (driver_UseLastInsertID w d)).
  assert (Hu : call_succeeded w s (EvUseLastInsertID d)) by exact I.
  unfold check, call_generate, bind, get, emit, ret. simpl.
  destruct (generate w SingletonOutput s sd) as [err|] eqn:H1; simpl.
  { apply (finished_failure w s [EvUseLastInsertID d] SingletonOutput sd err);
      [each_call | exact H1]. }
  assert (Hc1 : call_succeeded w s (EvGenerate SingletonOutput sd)) by exact H1.
  destruct includeTests; simpl.
  - destruct (generate w TestMainOutput s sd) as [err|] eqn:H2; simpl.
    { apply (finished_failure w s
               [EvUseLastInsertID d; EvGenerate SingletonOutput sd]
               TestMainOutput sd err); [each_call | exact H2]. }
    assert (Hc2 : call_succeeded w s (EvGenerate TestMainOutput sd)) by exact H2.
    destruct (generate w SingletonTestOutput s sd) as [err|] eqn:H3; simpl.
    { apply (finished_failure w s
               [EvUseLastInsertID d; EvGenerate SingletonOutput sd;
                EvGenerate TestMainOutput sd]
               SingletonTestOutput sd err); [each_call | exact H3]. }
    assert (Hc3 : call_succeeded w s (EvGenerate SingletonTestOutput sd)) by exact H3.
    destruct (runTables w true (elems (Tables s)) s) as [l r].
    apply (finished_prefix w s
             [EvUseLastInsertID d; EvGenerate SingletonOutput sd;
              EvGenerate TestMainOutput sd; EvGenerate SingletonTestOutput sd]
             (l, r)); [each_call | exact HL].
  - destruct (runTables w false (elems (Tables s)) s) as [l r].
    apply (finished_prefix w s
             [EvUseLastInsertID d; EvGenerate SingletonOutput sd] (l, r));
      [each_call | exact HL].
Qed.



(** X20: [Run] stops at the first generator that fails: when it returns
    an error, the last call of the log is the generator call that failed,
    every generator call before it returned nil, and the error is that
    call's error wrapped with the message of its generator; when it
    returns nil every generator call of the log returned nil. *)
Theorem Run_stops_at_first_failure :
  forall (w : World) (includeTests : bool) (s : State) (d : Interface),
    Driver s = Some d ->
    (forall e,
        value (Run w includeTests s) = Some (Some e) ->
        exists l g data cause,
          trace (Run w includeTests s) = l ++ [EvGenerate g data]
          /\ Forall (call_succeeded w s) l
          /\ generate w g s data = Some cause
          /\ e = Wrap cause (run_message g))
    /\ (value (Run w includeTests s) = Some None ->
        Forall (call_succeeded w s) (trace (Run w includeTests s))).
Proof.
  intros w includeTests s d Hd.
  pose proof (Run_finished w includeTests s d Hd) as H.
  unfold finished in H. unfold value, trace.
  destruct (snd (Run w includeTests s)) as [[e|] s'|]; [| |contradiction].
  - split; [|discriminate]. intros e' He. injection He as <-.
    destruct H as (_ & H). exact H.
  - split; [discriminate|]. intros _. destruct H as (_ & H). exact H.
Qed.

Lemma Run_stops_at_first_failure_witness :
  exists l g data cause,
    trace (Run Fixtures.outputFailsWorld true Fixtures.readyState)
    = l ++ [EvGenerate g data]
    /\ generate Fixtures.outputFailsWorld g Fixtures.readyState data = Some cause
    /\ Wrap (errors.New "disk full") "unable to generate output"
       = Wrap cause (run_message g).
Proof.
  destruct (proj1 (Run_stops_at_first_failure
                     Fixtures.outputFailsWorld true Fixtures.readyState
                     MockDriver eq_refl)
                  (Wrap (errors.New "disk full") "unable to generate output")
                  eq_refl)
    as (l & g & data & cause & Ht & _ & Hg & He).
  exists l, g, data, cause. repeat split; assumption.
Defined.

Lemma Run_all_ok (w : World) (includeTests : bool) (s : State) (d : Interface) :
  Driver s = Some d ->
  (forall g data, generate w g s data = None) ->
  Run w includeTests s = (run_calls w s d includeTests, Ret None s).
Proof.
  intros Hd Hg. unfold Run.
  unfold bind at 1. unfold get at 1. cbv iota beta.
  unfold bind at 1.
  rewrite (Driver_UseLastInsertID_eq w s d Hd). cbv iota beta.
  unfold check, call_generate, bind, get, emit, ret. simpl.
  rewrite !Hg.
  destruct includeTests; simpl; rewrite ?Hg; simpl;
    rewrite (runTables_all_ok w _ (elems (Tables s)) s d Hd Hg);
    reflexivity.
Qed.

Lemma filter_flat_map {A B} (p : B -> bool) (f : A -> list B) (l : list A) :
  filter p (flat_map f l) = flat_map (fun a => filter p (f a)) l.
Proof.
  induction l as [|a l IH]; simpl; [reflexivity|].
  now rewrite filter_app, IH.
Qed.

(** X21: when no generator fails, [includeTests] only adds calls: the
    log of [Run] with tests, with the calls of the three test generators
    taken out, is the log of [Run] without tests. *)
Theorem Run_tests_only_add_calls :
  forall (w : World) (s : State) (d : Interface),
    Driver s = Some d ->
    (forall g data, generate w g s data = None) ->
    filter (fun e => negb (is_test_call e)) (trace (Run w true s))
    = trace (Run w false s).
Proof.
  intros w s d Hd Hg.
  rewrite !(Run_all_ok w _ s d Hd Hg). unfold trace, run_calls. cbn [fst].
  rewrite !filter_app, filter_flat_map.
  assert (E : flat_map (fun t => filter (fun e => negb (is_test_call e))
                                        (table_calls w s d true t))
                       (filter (fun t => negb (IsJoinTable t)) (elems (Tables s)))
              = flat_map (table_calls w s d false)
                         (filter (fun t => negb (IsJoinTable t)) (elems (Tables s)))).
  { apply flat_map_ext. intros t. reflexivity. }
  rewrite E. reflexivity.
Qed.

Lemma Run_tests_only_add_calls_witness :
  filter (fun e => negb (is_test_call e))
         (trace (Run Fixtures.okWorld true Fixtures.readyState))
  = trace (Run Fixtures.okWorld false Fixtures.readyState).
Proof.
  apply (Run_tests_only_add_calls Fixtures.okWorld Fixtures.readyState MockDriver).
  - reflexivity.
  - intros g data. reflexivity.
Defined.

(** X22: [Cleanup] leaves the state as it is, the driver still set, so
    a second [Cleanup] calls [Close] on the same driver again; on a state
    without a driver it panics without having called anything. *)
Theorem Cleanup_keeps_driver :
  forall (w : World) (s : State),
    (forall d, Driver s = Some d ->
               final (Cleanup w s) = Some s
               /\ bind (Cleanup w) (fun _ => Cleanup w) s
                  = ([EvClose d; EvClose d], Ret None s))
    /\ (Driver s = None -> Cleanup w s = ([], Panic)).
Proof.
  intros w s. unfold Cleanup, Driver_Close, the_Driver.
  unfold final, bind, get, emit, ret, panic. simpl. split.
  - intros d Hd. rewrite Hd. simpl. rewrite Hd. split; reflexivity.
  - intros Hd. now rewrite Hd.
Qed.

Lemma Cleanup_keeps_driver_witness :
  bind (Cleanup Fixtures.okWorld) (fun _ => Cleanup Fixtures.okWorld)
       Fixtures.readyState
  = ([EvClose MockDriver; EvClose MockDriver], Ret None Fixtures.readyState).
Proof.
  apply (proj1 (Cleanup_keeps_driver Fixtures.okWorld Fixtures.readyState)
               MockDriver eq_refl).
Defined.

(** X23: a state that [New] returns can be run and cleaned up: on it
    [Run] returns without changing it, whatever the generators do, and
    [Cleanup] calls [Close] once, on the driver selected for the
    configured name, and returns nil. *)
Theorem New_then_Run_and_Cleanup :
  forall (w : World) (config : Config) (s : State) (e : option error),
    value (sqlboiler.New w config) = Some (Some s, e) ->
    (forall includeTests, exists r, snd (Run w includeTests s) = Ret r s)
    /\ exists d,
        selectDriver config = Some d
        /\ Cleanup w s = ([EvClose d], Ret None s).
Proof.
  intros w config s e H.
  destruct (New_outcome w config) as (l & st & e' & s' & E & _ & Hd & Hc).
  rewrite E in H. unfold value in H. cbn [snd] in H.
  injection H as -> ->.
  destruct e as [err|]; [discriminate|].
  destruct Hc as (Hs & Hn & _). injection Hs as <-.
  destruct (Driver s) as [d|] eqn:Hds; [|contradiction].
  split.
  - intros includeTests.
    pose proof (Run_finished w includeTests s d Hds) as H.
    unfold finished in H.
    destruct (snd (Run w includeTests s)) as [[r|] s'|]; [| |contradiction].
    + destruct H as (-> & _). now exists (Some r).
    + destruct H as (-> & _). now exists None.
  - exists d. split; [now rewrite <- Hd|].
    unfold Cleanup, Driver_Close, the_Driver, bind, get, emit, ret. simpl.
    now rewrite Hds.
Qed.

Lemma New_then_Run_and_Cleanup_witness :
  exists d,
    selectDriver Fixtures.mockConfig = Some d
    /\ Cleanup Fixtures.okWorld Fixtures.builtState
       = ([EvClose d], Ret None Fixtures.builtState).
Proof.
  exact (proj2 (New_then_Run_and_Cleanup
                  Fixtures.okWorld Fixtures.mockConfig Fixtures.builtState None
                  eq_refl)).
Defined.

End RunMore.
